(** * Inertial height estimation: the canonical [useIMUHeight] hook
    (peak-tracking variant, src/unnamed/part_000, lines 304-628).

    JavaScript numbers are modelled as real numbers: IEEE rounding, NaN and
    infinities are abstracted away.  [Math.sqrt] is [sqrt], [Math.floor] is
    [Int_part], [Math.min]/[Math.max] are [Rmin]/[Rmax].  The hook's refs,
    its React state and the window's listener registrations form one
    explicit [Engine] record; each callback is a function on it.  The
    [debugInfo] text is formatted output only and is not modelled. *)

From Stdlib Require Import Reals Lra Lia List String ZArith.
Import ListNotations.
Open Scope R_scope.

(** ** JavaScript numeric helpers *)

Definition Rltb (a b : R) : bool := if Rlt_dec a b then true else false.
Definition Rleb (a b : R) : bool := if Rle_dec a b then true else false.

(** [Math.floor] *)
Definition js_floor (r : R) : R := IZR (Int_part r).

(** [Math.round]: the nearest integer, halves rounded up. *)
Definition js_round (r : R) : R := js_floor (r + /2).

(** [Math.trunc], as used by the [%] operator. *)
Definition js_trunc (r : R) : R :=
  if Rle_dec 0 r then js_floor r else - js_floor (- r).

(** [a % b] *)
Definition js_mod (a b : R) : R := a - b * js_trunc (a / b).

(** [x ?? 0] for a nullable number. *)
Definition nz (o : option R) : R := match o with Some v => v | None => 0 end.

(** ** Vector math (lines 317-334) *)

(** [interface Vec3 { x; y; z }] *)
Record Vec3 := mkVec3 { vx : R; vy : R; vz : R }.

Definition vecAdd (a b : Vec3) : Vec3 :=
  mkVec3 (vx a + vx b) (vy a + vy b) (vz a + vz b).
Definition vecScale (a : Vec3) (s : R) : Vec3 :=
  mkVec3 (vx a * s) (vy a * s) (vz a * s).
Definition vecLen (a : Vec3) : R :=
  sqrt (vx a * vx a + vy a * vy a + vz a * vz a).
Definition vecSub (a b : Vec3) : Vec3 :=
  mkVec3 (vx a - vx b) (vy a - vy b) (vz a - vz b).
Definition vecDot (a b : Vec3) : R := vx a * vx b + vy a * vy b + vz a * vz b.
(** [const l = vecLen(a) || 1]: a zero length is replaced by 1. *)
Definition vecNorm (a : Vec3) : Vec3 :=
  let l := if Req_dec_T (vecLen a) 0 then 1 else vecLen a in
  mkVec3 (vx a / l) (vy a / l) (vz a / l).

(** [toFeetInches] (lines 319-324): [(feet, inches, cm)]. *)
Definition toFeetInches (cm : R) : R * R * R :=
  let totalInches := cm / 2.54 in
  let feet := js_floor (totalInches / 12) in
  let inches := js_round (js_mod totalInches 12 * 10) / 10 in
  (feet, inches, js_round (cm * 10) / 10).

(** ** Device motion events *)

(** [accelerationIncludingGravity]: each axis may be null. *)
Record Accel := mkAccel { ax : option R; ay : option R; az : option R }.
(** [rotationRate], deg/s; each axis may be null. *)
Record RotRate := mkRotRate { alpha : option R; beta : option R; gamma : option R }.

Record DeviceMotionEvent := mkEvent {
  accelerationIncludingGravity : option Accel;
  rotationRate : option RotRate;
  (** [Some i] when [typeof e.interval === 'number'] (milliseconds). *)
  interval : option R
}.

(** ** Engine state *)

(** The React [MeasurementState] (without [debugInfo]). *)
Record MeasurementState := mkMS {
  isCalibrating : bool; isMeasuring : bool; isComplete : bool;
  heightCm : R; heightFt : R; heightInches : R; confidence : R
}.

(** The IMU runtime refs (lines 352-359). *)
Record Refs := mkRefs {
  gravityRef : Vec3;
  lastTimestampRef : R;
  velocityRef : R;
  displacementRef : R;
  peakDisplacementRef : R;
  stationarySamplesRef : nat;
  totalSamplesRef : nat;
  hasCalibratedRef : bool
}.

(** What the hook registers on [window]: the number of live
    ['devicemotion'] / ['deviceorientation'] listeners it added, and whether
    [window._imu_onMotion] / [window._imu_onOrientation] are set. *)
Record Win := mkWin {
  motionListeners : nat; orientationListeners : nat;
  imu_onMotion : bool; imu_onOrientation : bool
}.

Record Engine := mkEngine {
  measurementState : MeasurementState;
  error : option string;
  permissionGranted : bool;
  refs : Refs;
  win : Win
}.

Definition defaultGravity : Vec3 := mkVec3 0 0 (981 / 100).

Definition initialMS : MeasurementState := mkMS false false false 0 0 0 0.

Definition initialRefs : Refs :=
  mkRefs defaultGravity 0 0 0 0 0 0 false.

Definition initialEngine : Engine :=
  mkEngine initialMS None false initialRefs (mkWin 0 0 false false).

(** Record update helpers (the spread [{ ...p, ... }] and ref writes). *)
Definition setRefs (st : Engine) (r : Refs) : Engine :=
  mkEngine (measurementState st) (error st) (permissionGranted st) r (win st).
Definition setMS (st : Engine) (m : MeasurementState) : Engine :=
  mkEngine m (error st) (permissionGranted st) (refs st) (win st).
Definition setError (st : Engine) (e : option string) : Engine :=
  mkEngine (measurementState st) e (permissionGranted st) (refs st) (win st).

Definition setGravity (r : Refs) (g : Vec3) : Refs :=
  mkRefs g (lastTimestampRef r) (velocityRef r) (displacementRef r)
    (peakDisplacementRef r) (stationarySamplesRef r) (totalSamplesRef r)
    (hasCalibratedRef r).
Definition setLastTimestamp (r : Refs) (t : R) : Refs :=
  mkRefs (gravityRef r) t (velocityRef r) (displacementRef r)
    (peakDisplacementRef r) (stationarySamplesRef r) (totalSamplesRef r)
    (hasCalibratedRef r).

(** ** The per-sample handler [onMotion] (lines 461-548) *)

(** [const lpf = 0.01] *)
Definition lpf : R := 1 / 100.

(** [dt] before clamping (lines 468-470): the reported interval when it is
    a positive number, else the wall-clock delta, else 0.02 s for the first
    sample. *)
Definition rawDt (e : DeviceMotionEvent) (tsNow last : R) : R :=
  let fallback := if Req_dec_T last 0 then 2 / 100 else (tsNow - last) / 1000 in
  match interval e with
  | Some i => if Rlt_dec 0 i then i / 1000 else fallback
  | None => fallback
  end.

(** [dt = Math.max(0.005, Math.min(0.05, dt))] *)
Definition clampDt (dt : R) : R := Rmax (5 / 1000) (Rmin (5 / 100) dt).

(** [gMeas = { x: ag.x ?? 0, ... }] *)
Definition gMeasOf (a : Accel) : Vec3 := mkVec3 (nz (ax a)) (nz (ay a)) (nz (az a)).

(** The low-pass candidate [prior*(1-lpf) + measured*lpf]. *)
Definition gCandidate (gPrev gMeas : Vec3) : Vec3 :=
  vecAdd (vecScale gPrev (1 - lpf)) (vecScale gMeas lpf).

(** [rotMag]: norm of the rotation rate, 0 when absent. *)
Definition rotMagOf (rr : option RotRate) : R :=
  match rr with
  | Some r => sqrt (nz (alpha r) ^ 2 + nz (beta r) ^ 2 + nz (gamma r) ^ 2)
  | None => 0
  end.

(** [allowGUpdate] and [gNew] (lines 476-483). *)
Definition allowGUpdate (gPrev gMeas : Vec3) (rotMag : R) : bool :=
  Rltb (vecLen (vecSub gMeas (gCandidate gPrev gMeas))) (2 / 10) && Rltb rotMag 3.

Definition gravityUpdate (gPrev gMeas : Vec3) (rotMag : R) : Vec3 :=
  if allowGUpdate gPrev gMeas rotMag then gCandidate gPrev gMeas else gPrev.

(** Lines 502-531: stationary counter, velocity integration, damping, ZUPT,
    upward-only displacement integration, clamping and peak tracking. *)
Definition integrate (stationary : bool) (aVertCm dt : R) (r : Refs) : Refs :=
  let cnt := if stationary then S (stationarySamplesRef r) else 0%nat in
  let v1 := velocityRef r + aVertCm * dt in
  let v2 := if stationary then v1 else v1 * (9995 / 10000) in
  let v3 := if Rle_dec (5 / 10) (INR cnt * dt) then 0 else v2 in
  let vUp := Rmax 0 v3 in
  let d1 := displacementRef r + vUp * dt in
  let d2 := if Rlt_dec d1 0 then 0 else d1 in
  let p1 := Rmax (peakDisplacementRef r) d2 in
  let d3 := if Rlt_dec 300 d2 then 300 else d2 in
  let p2 := if Rlt_dec 300 p1 then 300 else p1 in
  mkRefs (gravityRef r) (lastTimestampRef r) v3 d3 p2 cnt
    (S (totalSamplesRef r)) (hasCalibratedRef r).

(** Lines 533-547: the snapshot written to the React state. *)
Definition snapshot (peak : R) (stationary : bool) (m : MeasurementState)
  : MeasurementState :=
  let cm := js_round (peak * 10) / 10 in
  let '(feet, inches, cmRounded) := toFeetInches cm in
  let confBase := Rmin 95 (60 + Rmin 35 (cmRounded / 200 * 35)) in
  let conf := if stationary then Rmin (995 / 10) (confBase + 3) else confBase in
  mkMS (isCalibrating m) (isMeasuring m) (isComplete m)
    cmRounded feet inches (js_round (conf * 10) / 10).

(** The motion classification (lines 486-501) for a given gravity. *)
Definition aVertOf (gMeas gNew : Vec3) : R :=
  let aLin := vecSub gMeas gNew in
  let up := vecNorm (mkVec3 (- vx gNew) (- vy gNew) (- vz gNew)) in
  vecDot aLin up.

Definition isStationary (gMeas gNew : Vec3) (rotMag : R) : bool :=
  Rltb (Rabs (aVertOf gMeas gNew)) (3 / 100) && Rltb rotMag (7 / 10)
  && Rltb (vecLen (vecSub gMeas gNew)) (6 / 100).

Definition onMotion (tsNow : R) (e : DeviceMotionEvent) (st : Engine) : Engine :=
  let r := refs st in
  let dt0 := rawDt e tsNow (lastTimestampRef r) in
  let r1 := setLastTimestamp r tsNow in
  match accelerationIncludingGravity e with
  | None => setRefs st r1
  | Some ag =>
      let dt := clampDt dt0 in
      let gMeas := gMeasOf ag in
      let rotMag := rotMagOf (rotationRate e) in
      let gNew := gravityUpdate (gravityRef r1) gMeas rotMag in
      let stationary := isStationary gMeas gNew rotMag in
      let r2 := integrate stationary (aVertOf gMeas gNew * 100) dt (setGravity r1 gNew) in
      mkEngine (snapshot (peakDisplacementRef r2) stationary (measurementState st))
        (error st) (permissionGranted st) r2 (win st)
  end.

(** ** Session operations *)

(** The outcome of the platform's permission prompts. *)
Inductive PermissionOutcome :=
| Granted | MotionDenied | OrientationDenied | RequestThrew.

(** [requestSensorPermission] (lines 362-389). *)
Definition requestSensorPermission (o : PermissionOutcome) (st : Engine) : Engine :=
  match o with
  | Granted =>
      mkEngine (measurementState st) None true (refs st) (win st)
  | MotionDenied => setError st (Some "Motion sensor permission denied"%string)
  | OrientationDenied => setError st (Some "Orientation sensor permission denied"%string)
  | RequestThrew => setError st (Some "Failed to request sensor permissions"%string)
  end.

(** The calibration handler (lines 401-406): events without
    [accelerationIncludingGravity] are skipped. *)
Fixpoint collect (window : list DeviceMotionEvent) : list Vec3 :=
  match window with
  | [] => []
  | e :: rest =>
      match accelerationIncludingGravity e with
      | None => collect rest
      | Some ag => gMeasOf ag :: collect rest
      end
  end.

Definition zeroVec : Vec3 := mkVec3 0 0 0.

(** The part of [calibrate] after the permission gate (lines 397-434); the
    1.5 s window delivers the events [window]. *)
Definition calibrateWindow (window : list DeviceMotionEvent) (st : Engine) : Engine :=
  let m := measurementState st in
  let st1 := setMS (setError st None)
      (mkMS true (isMeasuring m) (isComplete m) (heightCm m) (heightFt m)
         (heightInches m) (confidence m)) in
  let samples := collect window in
  if Nat.eqb (List.length samples) 0 then
    let m1 := measurementState st1 in
    setMS (setError st1 (Some "No sensor data during calibration"%string))
      (mkMS false (isMeasuring m1) (isComplete m1) (heightCm m1) (heightFt m1)
         (heightInches m1) (confidence m1))
  else
    let avg := fold_left vecAdd samples zeroVec in
    let g := vecScale avg (1 / INR (List.length samples)) in
    let r := refs st1 in
    let r1 := mkRefs g (lastTimestampRef r) (velocityRef r) (displacementRef r)
                (peakDisplacementRef r) (stationarySamplesRef r)
                (totalSamplesRef r) true in
    setMS (setRefs st1 r1) (mkMS false false false 0 0 0 0).

(** [calibrate] (lines 392-435).  The callback reads the [permissionGranted]
    captured when it was created, so after requesting permission it returns
    without calibrating. *)
Definition calibrate (o : PermissionOutcome) (window : list DeviceMotionEvent)
  (st : Engine) : Engine :=
  if permissionGranted st then calibrateWindow window st
  else requestSensorPermission o st.

(** [startMeasurement] (lines 437-560). *)
Definition startMeasurement (st : Engine) : Engine :=
  let r := refs st in
  if negb (hasCalibratedRef r) then setError st (Some "Please calibrate first"%string)
  else
    let m := measurementState st in
    let w := win st in
    mkEngine (mkMS (isCalibrating m) true false 0 0 0 0) None (permissionGranted st)
      (mkRefs (gravityRef r) 0 0 0 0 0 0 (hasCalibratedRef r))
      (mkWin (S (motionListeners w)) (S (orientationListeners w)) true true).

(** Removing the handlers stored on [window] (lines 563-570 and 581-588). *)
Definition detach (w : Win) : Win :=
  let w1 := if imu_onMotion w
            then mkWin (pred (motionListeners w)) (orientationListeners w)
                   false (imu_onOrientation w)
            else w in
  if imu_onOrientation w1
  then mkWin (motionListeners w1) (pred (orientationListeners w1))
         (imu_onMotion w1) false
  else w1.

(** [stopMeasurement] (lines 562-578). *)
Definition stopMeasurement (st : Engine) : Engine :=
  let m := measurementState st in
  mkEngine (mkMS (isCalibrating m) false true (heightCm m) (heightFt m)
              (heightInches m) (confidence m))
    (error st) (permissionGranted st) (refs st) (detach (win st)).

(** [resetMeasurement] (lines 580-610). *)
Definition resetMeasurement (st : Engine) : Engine :=
  mkEngine initialMS None (permissionGranted st)
    (mkRefs defaultGravity 0 0 0 0 0 0 false) (detach (win st)).

Inductive Op :=
| OpRequestPermission (o : PermissionOutcome)
| OpCalibrate (o : PermissionOutcome) (window : list DeviceMotionEvent)
| OpStart
| OpStop
| OpReset
| OpMotion (tsNow : R) (e : DeviceMotionEvent).

(** A ['devicemotion'] event runs every registered [onMotion] listener. *)
Definition deliver (tsNow : R) (e : DeviceMotionEvent) (st : Engine) : Engine :=
  Nat.iter (motionListeners (win st)) (onMotion tsNow e) st.

Definition step (st : Engine) (op : Op) : Engine :=
  match op with
  | OpRequestPermission o => requestSensorPermission o st
  | OpCalibrate o window => calibrate o window st
  | OpStart => startMeasurement st
  | OpStop => stopMeasurement st
  | OpReset => resetMeasurement st
  | OpMotion t e => deliver t e st
  end.

Definition exec (ops : list Op) (st : Engine) : Engine := fold_left step ops st.

(** * Proofs *)

Abbreviation disp st := (displacementRef (refs st)).
Abbreviation peak st := (peakDisplacementRef (refs st)).

(** Resolve the [Rlt_dec]/[Rle_dec] branches and [Rmax]/[Rmin] in the goal. *)
Ltac split_decs :=
  unfold Rmax, Rmin in *;
  repeat match goal with
  | |- context [Rlt_dec ?a ?b] => destruct (Rlt_dec a b)
  | |- context [Rle_dec ?a ?b] => destruct (Rle_dec a b)
  | H : context [Rlt_dec ?a ?b] |- _ => destruct (Rlt_dec a b)
  | H : context [Rle_dec ?a ?b] |- _ => destruct (Rle_dec a b)
  end.

Lemma clampDt_range dt : 5 / 1000 <= clampDt dt <= 5 / 100.
Proof. unfold clampDt. split_decs; lra. Qed.

(** [onMotion] either only stamps the time (no acceleration) or runs
    [integrate] with a clamped [dt] on the refs after the gravity update. *)
Lemma onMotion_refs ts e st :
  (accelerationIncludingGravity e = None /\
   refs (onMotion ts e st) = setLastTimestamp (refs st) ts) \/
  (exists s a dt g, 5 / 1000 <= dt <= 5 / 100 /\
   refs (onMotion ts e st) =
     integrate s a dt (setGravity (setLastTimestamp (refs st) ts) g)).
Proof.
  unfold onMotion. destruct (accelerationIncludingGravity e) as [ag|].
  - right. do 4 eexists. split; [apply clampDt_range | reflexivity].
  - left. split; reflexivity.
Qed.

(** The displacement produced by [integrate]: the old one plus a
    non-negative increment, clamped. *)
Lemma integrate_disp_peak s a dt r : 0 <= dt ->
  exists inc, 0 <= inc /\
    displacementRef (integrate s a dt r) =
      (if Rlt_dec 300 (if Rlt_dec (displacementRef r + inc) 0 then 0
                       else displacementRef r + inc) then 300
       else if Rlt_dec (displacementRef r + inc) 0 then 0
       else displacementRef r + inc) /\
    peakDisplacementRef (integrate s a dt r) =
      (let p1 := Rmax (peakDisplacementRef r)
                   (if Rlt_dec (displacementRef r + inc) 0 then 0
                    else displacementRef r + inc) in
       if Rlt_dec 300 p1 then 300 else p1).
Proof.
  intros Hdt. unfold integrate. cbn [displacementRef peakDisplacementRef].
  match goal with |- context [Rmax 0 ?v * dt] => exists (Rmax 0 v * dt) end.
  split; [|split; reflexivity].
  apply Rmult_le_pos; [apply Rmax_l | exact Hdt].
Qed.

(** Properties of the pair (displacement, peak) that hold after
    [startMeasurement]/[resetMeasurement] and are kept by every integrator
    step hold in every state reached by any sequence of operations. *)
Section ExecInvariant.
Variable P : R -> R -> Prop.
Hypothesis P_zero : P 0 0.
Hypothesis P_integrate : forall s a dt r, 5 / 1000 <= dt ->
  P (displacementRef r) (peakDisplacementRef r) ->
  P (displacementRef (integrate s a dt r)) (peakDisplacementRef (integrate s a dt r)).

Lemma onMotion_P ts e st : P (disp st) (peak st) ->
  P (disp (onMotion ts e st)) (peak (onMotion ts e st)).
Proof.
  intros H. destruct (onMotion_refs ts e st) as [[_ ->] | (s & a & dt & g & Hdt & ->)].
  - exact H.
  - apply P_integrate; [lra | exact H].
Qed.

Lemma deliver_P ts e st : P (disp st) (peak st) ->
  P (disp (deliver ts e st)) (peak (deliver ts e st)).
Proof.
  unfold deliver. generalize (motionListeners (win st)) as n.
  induction n as [|n IH]; intros H; [exact H|].
  simpl. apply onMotion_P. apply IH, H.
Qed.

Lemma step_P st op : P (disp st) (peak st) ->
  P (disp (step st op)) (peak (step st op)).
Proof.
  intros H. destruct op as [o|o w| | | |t e]; simpl.
  - destruct o; exact H.
  - unfold calibrate. destruct (permissionGranted st).
    + unfold calibrateWindow. destruct (Nat.eqb _ 0); exact H.
    + destruct o; exact H.
  - unfold startMeasurement. destruct (negb _); [exact H | exact P_zero].
  - exact H.
  - exact P_zero.
  - apply deliver_P, H.
Qed.

Lemma exec_P ops st : P (disp st) (peak st) ->
  P (disp (exec ops st)) (peak (exec ops st)).
Proof.
  unfold exec. revert st. induction ops as [|op ops IH]; intros st H; simpl.
  - exact H.
  - apply IH, step_P, H.
Qed.
End ExecInvariant.

Lemma integrate_bounds s a dt r : 0 <= dt ->
  0 <= displacementRef r <= 300 -> 0 <= peakDisplacementRef r <= 300 ->
  displacementRef r <= peakDisplacementRef r ->
  0 <= displacementRef (integrate s a dt r) <= 300 /\
  0 <= peakDisplacementRef (integrate s a dt r) <= 300 /\
  displacementRef (integrate s a dt r) <= peakDisplacementRef (integrate s a dt r).
Proof.
  intros Hdt Hd Hp Hdp.
  destruct (integrate_disp_peak s a dt r Hdt) as (inc & Hinc & -> & ->).
  cbv zeta. split_decs; lra.
Qed.

Lemma integrate_disp_mono s a dt r : 0 <= dt ->
  0 <= displacementRef r <= 300 ->
  displacementRef r <= displacementRef (integrate s a dt r).
Proof.
  intros Hdt Hd.
  destruct (integrate_disp_peak s a dt r Hdt) as (inc & Hinc & -> & _).
  split_decs; lra.
Qed.

Lemma integrate_peak_mono s a dt r : 0 <= dt ->
  peakDisplacementRef r <= 300 ->
  peakDisplacementRef r <= peakDisplacementRef (integrate s a dt r).
Proof.
  intros Hdt Hp.
  destruct (integrate_disp_peak s a dt r Hdt) as (inc & Hinc & _ & ->).
  cbv zeta. split_decs; lra.
Qed.

Lemma integrate_disp_eq_peak s a dt r : 0 <= dt ->
  displacementRef r = peakDisplacementRef r -> 0 <= displacementRef r <= 300 ->
  displacementRef (integrate s a dt r) = peakDisplacementRef (integrate s a dt r) /\
  0 <= displacementRef (integrate s a dt r) <= 300.
Proof.
  intros Hdt Hdp Hd.
  destruct (integrate_disp_peak s a dt r Hdt) as (inc & Hinc & -> & ->).
  cbv zeta. split_decs; lra.
Qed.

(** Every state reached from the hook's initial state keeps
    [0 <= displacement <= 300], [0 <= peak <= 300], [displacement <= peak]. *)
Lemma reachable_bounds ops :
  let st := exec ops initialEngine in
  0 <= disp st <= 300 /\ 0 <= peak st <= 300 /\ disp st <= peak st.
Proof.
  apply (exec_P (fun d p => 0 <= d <= 300 /\ 0 <= p <= 300 /\ d <= p)).
  - lra.
  - intros s a dt r Hdt (Hd & Hp & Hdp). apply integrate_bounds; lra.
  - simpl. lra.
Qed.

Lemma reachable_disp_eq_peak ops :
  let st := exec ops initialEngine in disp st = peak st /\ 0 <= disp st <= 300.
Proof.
  apply (exec_P (fun d p => d = p /\ 0 <= d <= 300)).
  - lra.
  - intros s a dt r Hdt (Hdp & Hd). apply integrate_disp_eq_peak; lra.
  - simpl. lra.
Qed.

(** ** C1 *)

(** C1: in every state reached by any sequence of operations (calibration,
    start, stop, reset and any number of processed samples) from the hook's
    initial state, [0 <= displacementCm <= 300], [0 <= peakDisplacementCm <= 300]
    and [peakDisplacementCm >= displacementCm]; in particular after every
    integrator update. *)
Theorem C1_displacement_peak_invariant ops ts e :
  let st := exec ops initialEngine in
  let st' := onMotion ts e st in
  (0 <= disp st <= 300 /\ 0 <= peak st <= 300 /\ disp st <= peak st) /\
  (0 <= disp st' <= 300 /\ 0 <= peak st' <= 300 /\ disp st' <= peak st').
Proof.
  cbv zeta. split; [apply reachable_bounds|].
  destruct (reachable_bounds ops) as (Hd & Hp & Hdp).
  apply (onMotion_P (fun d p => 0 <= d <= 300 /\ 0 <= p <= 300 /\ d <= p)).
  - intros s a dt r Hdt (Hd' & Hp' & Hdp'). apply integrate_bounds; lra.
  - auto.
Qed.

(** ** C8 *)

(** C8: processing a sample never lowers [peakDisplacementCm]: for every
    reachable state and every sample, the peak after the sample is at least
    the peak before it. *)
Theorem C8_peak_monotonic ops ts e :
  let st := exec ops initialEngine in
  peak st <= peak (onMotion ts e st).
Proof.
  cbv zeta. destruct (reachable_bounds ops) as (_ & Hp & _).
  destruct (onMotion_refs ts e (exec ops initialEngine))
    as [[_ ->] | (s & a & dt & g & Hdt & ->)].
  - simpl. lra.
  - match goal with |- _ <= peakDisplacementRef (integrate ?s ?a ?dt ?r) =>
      apply (integrate_peak_mono s a dt r) end; simpl; lra.
Qed.

(** ** C10 *)

(** C10: in every reachable state [peakDisplacementCm = displacementCm], and
    processing a sample never lowers [displacementCm] (the lower clamp never
    binds); so the reported peak always equals the current displacement,
    also after the sample. *)
Theorem C10_displacement_is_peak ops ts e :
  let st := exec ops initialEngine in
  disp st = peak st /\ disp st <= disp (onMotion ts e st) /\
  disp (onMotion ts e st) = peak (onMotion ts e st).
Proof.
  cbv zeta. destruct (reachable_disp_eq_peak ops) as (Hdp & Hd).
  destruct (onMotion_refs ts e (exec ops initialEngine))
    as [[_ ->] | (s & a & dt & g & Hdt & ->)].
  - simpl. lra.
  - split; [exact Hdp|]. split.
    + match goal with |- _ <= displacementRef (integrate ?s ?a ?dt ?r) =>
        apply (integrate_disp_mono s a dt r) end; simpl; lra.
    + apply integrate_disp_eq_peak; simpl; lra.
Qed.

(** ** C9 *)

(** C9: [resetMeasurement] is idempotent, and from any state it leaves the
    phase idle (no flag set), the integrator refs at zero, the gravity
    estimate at the default [{0, 0, 9.81}] and calibration discarded. *)
Theorem C9_reset_idempotent st :
  let st1 := resetMeasurement st in
  resetMeasurement st1 = st1 /\
  measurementState st1 = initialMS /\
  velocityRef (refs st1) = 0 /\ displacementRef (refs st1) = 0 /\
  peakDisplacementRef (refs st1) = 0 /\ stationarySamplesRef (refs st1) = 0%nat /\
  gravityRef (refs st1) = mkVec3 0 0 (981 / 100) /\
  hasCalibratedRef (refs st1) = false.
Proof.
  cbv zeta. repeat split.
  destruct st as [m er pg r [ml ol om oo]].
  unfold resetMeasurement, detach; cbn.
  destruct om, oo; reflexivity.
Qed.

(** ** C6 *)

Lemma onMotion_hasCalibrated ts e st :
  hasCalibratedRef (refs (onMotion ts e st)) = hasCalibratedRef (refs st).
Proof.
  destruct (onMotion_refs ts e st) as [[_ ->] | (s & a & dt & g & _ & ->)];
    reflexivity.
Qed.

Lemma deliver_hasCalibrated ts e st :
  hasCalibratedRef (refs (deliver ts e st)) = hasCalibratedRef (refs st).
Proof.
  unfold deliver. generalize (motionListeners (win st)) as n.
  induction n as [|n IH]; [reflexivity|].
  simpl. rewrite onMotion_hasCalibrated. exact IH.
Qed.

Definition motionOps (samples : list (R * DeviceMotionEvent)) : list Op :=
  map (fun '(t, e) => OpMotion t e) samples.

Lemma exec_motions_hasCalibrated samples st :
  hasCalibratedRef (refs (exec (motionOps samples) st)) = hasCalibratedRef (refs st).
Proof.
  unfold exec. revert st.
  induction samples as [|[t e] samples IH]; intros st; [reflexivity|].
  simpl. rewrite IH. apply deliver_hasCalibrated.
Qed.

(** C6: [startMeasurement] before a successful calibration only records the
    error ["Please calibrate first"] and changes nothing else; once
    calibrated it succeeds (clearing the error) and zeroes velocity,
    displacement, peak and the stationary counter.  A measurement run
    (start, samples, stop) keeps the calibration, so a second
    [startMeasurement] succeeds without recalibrating. *)
Theorem C6_startMeasurement_contract st samples :
  (let st' := startMeasurement st in
   if hasCalibratedRef (refs st) then
     error st' = None /\ isMeasuring (measurementState st') = true /\
     velocityRef (refs st') = 0 /\ displacementRef (refs st') = 0 /\
     peakDisplacementRef (refs st') = 0 /\ stationarySamplesRef (refs st') = 0%nat
   else
     error st' = Some "Please calibrate first"%string /\
     refs st' = refs st /\ measurementState st' = measurementState st /\
     win st' = win st) /\
  hasCalibratedRef
    (refs (stopMeasurement (exec (motionOps samples) (startMeasurement st))))
  = hasCalibratedRef (refs st).
Proof.
  split.
  - unfold startMeasurement. destruct (hasCalibratedRef (refs st)); cbn;
      repeat split.
  - unfold stopMeasurement. cbn [refs].
    rewrite exec_motions_hasCalibrated.
    unfold startMeasurement. destruct (hasCalibratedRef (refs st)) eqn:E;
      cbn; [reflexivity | exact E].
Qed.

(** ** C3 *)

Lemma onMotion_gravity ts e st ag :
  accelerationIncludingGravity e = Some ag ->
  gravityRef (refs (onMotion ts e st)) =
    gravityUpdate (gravityRef (refs st)) (gMeasOf ag) (rotMagOf (rotationRate e)).
Proof. intros H. unfold onMotion. rewrite H. reflexivity. Qed.

(** C3: for a sample carrying an acceleration, when the candidate's
    linear-acceleration magnitude is at least 0.2 m/s² or the rotation
    magnitude is at least 3 deg/s, the gravity estimate after the sample is
    the one before it; when both are below, it is the low-pass candidate. *)
Theorem C3_gravity_freeze ts e st ag :
  accelerationIncludingGravity e = Some ag ->
  let gPrev := gravityRef (refs st) in
  let gMeas := gMeasOf ag in
  let rotMag := rotMagOf (rotationRate e) in
  (2 / 10 <= vecLen (vecSub gMeas (gCandidate gPrev gMeas)) \/ 3 <= rotMag ->
   gravityRef (refs (onMotion ts e st)) = gPrev) /\
  (vecLen (vecSub gMeas (gCandidate gPrev gMeas)) < 2 / 10 /\ rotMag < 3 ->
   gravityRef (refs (onMotion ts e st)) = gCandidate gPrev gMeas).
Proof.
  intros H. cbv zeta. rewrite (onMotion_gravity ts e st ag H).
  unfold gravityUpdate, allowGUpdate, Rltb.
  split; intros Hc; split_decs; simpl; try reflexivity; lra.
Qed.

(** ** Rounding *)

Lemma js_floor_bounds r : js_floor r <= r < js_floor r + 1.
Proof.
  unfold js_floor. destruct (base_Int_part r) as [H1 H2]. lra.
Qed.

Lemma js_floor_eq r z : IZR z <= r < IZR z + 1 -> js_floor r = IZR z.
Proof.
  intros [H1 H2]. unfold js_floor, Int_part.
  rewrite <- (tech_up r (z + 1)); rewrite ?plus_IZR; try lra.
  f_equal. ring.
Qed.

Lemma js_round_bounds x : x - 1 / 2 < js_round x <= x + 1 / 2.
Proof. unfold js_round. pose proof (js_floor_bounds (x + / 2)). lra. Qed.

Lemma js_round_eq x z : IZR z - 1 / 2 <= x < IZR z + 1 / 2 -> js_round x = IZR z.
Proof. intros H. unfold js_round. apply js_floor_eq. lra. Qed.

(** The confidence the snapshot reports, as computed in lines 533-545. *)
Lemma snapshot_confidence p s m :
  confidence (snapshot p s m) =
    let cmRounded := js_round (js_round (p * 10) / 10 * 10) / 10 in
    let confBase := Rmin 95 (60 + Rmin 35 (cmRounded / 200 * 35)) in
    let conf := if s then Rmin (995 / 10) (confBase + 3) else confBase in
    js_round (conf * 10) / 10.
Proof. reflexivity. Qed.

(** ** C5 *)

(** The confidence formula as the spec states it, on the unrounded peak. *)
Definition specConfidence (peak : R) (stationary : bool) : R :=
  let base := Rmin 95 (60 + Rmin 35 (peak / 200 * 35)) in
  if stationary then Rmin (995 / 10) (base + 3) else base.

(** C5 counterexample: at a peak of 1 cm, not stationary, the formula gives
    60.175 but the reported confidence is rounded to 60.2. *)
Lemma C5_counterexample :
  specConfidence 1 false = 60175 / 1000 /\
  confidence (snapshot 1 false initialMS) = 602 / 10 /\
  confidence (snapshot 1 false initialMS) <> specConfidence 1 false.
Proof.
  assert (Hspec : specConfidence 1 false = 60175 / 1000).
  { unfold specConfidence. split_decs; lra. }
  assert (Hrep : confidence (snapshot 1 false initialMS) = 602 / 10).
  { rewrite snapshot_confidence. cbv zeta.
    rewrite (js_round_eq (1 * 10) 10) by lra.
    rewrite (js_round_eq (10 / 10 * 10) 10) by lra.
    replace (Rmin 95 (60 + Rmin 35 (10 / 10 / 200 * 35))) with (60175 / 1000)
      by (split_decs; lra).
    rewrite (js_round_eq (60175 / 1000 * 10) 602) by lra.
    reflexivity. }
  split; [exact Hspec|]. split; [exact Hrep|].
  rewrite Hspec, Hrep. lra.
Qed.

Lemma Rmin_diff a x y : Rabs (Rmin a x - Rmin a y) <= Rabs (x - y).
Proof. unfold Rabs. split_decs; repeat destruct Rcase_abs; lra. Qed.

(** C5 (amended): the reported confidence is the formula evaluated on the
    peak rounded to 0.1 cm, itself rounded to 0.1; it stays within 0.1 of
    the formula on the exact peak, and a peak below 0.05 cm (shown as 0 cm)
    reports a confidence of at most 63. *)
Theorem C5_confidence_rounded p s m :
  Rabs (confidence (snapshot p s m) - specConfidence p s) <= 1 / 10 /\
  (0 <= p < 1 / 20 -> confidence (snapshot p s m) <= 63).
Proof.
  rewrite snapshot_confidence. cbv zeta. split.
  - pose proof (js_round_bounds (p * 10)) as H1.
    generalize dependent (js_round (p * 10)). intros a H1.
    pose proof (js_round_bounds (a / 10 * 10)) as H2.
    generalize dependent (js_round (a / 10 * 10)). intros b H2.
    set (c := Rmin 95 (60 + Rmin 35 (b / 10 / 200 * 35))).
    set (c0 := Rmin 95 (60 + Rmin 35 (p / 200 * 35))).
    assert (Hc : Rabs (c - c0) <= 35 / 2000).
    { unfold c, c0. eapply Rle_trans; [apply Rmin_diff|].
      replace (60 + Rmin 35 (b / 10 / 200 * 35) - (60 + Rmin 35 (p / 200 * 35)))
        with (Rmin 35 (b / 10 / 200 * 35) - Rmin 35 (p / 200 * 35)) by ring.
      eapply Rle_trans; [apply Rmin_diff|].
      unfold Rabs. repeat destruct Rcase_abs; lra. }
    unfold specConfidence. fold c0. destruct s.
    + pose proof (js_round_bounds (Rmin (995 / 10) (c + 3) * 10)) as H3.
      pose proof (Rmin_diff (995 / 10) (c + 3) (c0 + 3)) as H4.
      revert H3 H4 Hc. unfold Rabs. repeat destruct Rcase_abs; lra.
    + pose proof (js_round_bounds (c * 10)) as H3.
      revert H3 Hc. unfold Rabs. repeat destruct Rcase_abs; lra.
  - intros Hp.
    rewrite (js_round_eq (p * 10) 0) by lra.
    rewrite (js_round_eq (0 / 10 * 10) 0) by lra.
    replace (Rmin 95 (60 + Rmin 35 (0 / 10 / 200 * 35))) with 60 by (split_decs; lra).
    destruct s.
    + replace (Rmin (995 / 10) (60 + 3)) with 63 by (split_decs; lra).
      rewrite (js_round_eq (63 * 10) 630) by lra. lra.
    + rewrite (js_round_eq (60 * 10) 600) by lra. lra.
Qed.

(** ** Samples of a device lying still *)

(** A device at rest: it reads exactly the default gravity and reports no
    rotation; [io] is the reported interval. *)
Definition restAccel : Accel := mkAccel (Some 0) (Some 0) (Some (981 / 100)).
Definition restEvent (io : option R) : DeviceMotionEvent :=
  mkEvent (Some restAccel) None io.

Lemma gCandidate_self g : gCandidate g g = g.
Proof. destruct g. unfold gCandidate, vecAdd, vecScale, lpf. simpl. f_equal; ring. Qed.

Lemma vecLen_sub_self g : vecLen (vecSub g g) = 0.
Proof.
  unfold vecLen, vecSub. simpl.
  replace (_ + _ + _) with 0 by ring. apply sqrt_0.
Qed.

Lemma aVertOf_self g : aVertOf g g = 0.
Proof. unfold aVertOf, vecDot, vecSub. simpl. ring. Qed.

Lemma setGravity_setLastTimestamp_self r t :
  setGravity (setLastTimestamp r t) (gravityRef r) = setLastTimestamp r t.
Proof. destruct r. reflexivity. Qed.

(** A rest sample, while the estimate is the default gravity, keeps the
    estimate, is classified stationary with zero vertical acceleration, and
    runs [integrate] with the clamped [dt]. *)
Lemma onMotion_rest ts io st :
  gravityRef (refs st) = defaultGravity ->
  refs (onMotion ts (restEvent io) st) =
    integrate true 0 (clampDt (rawDt (restEvent io) ts (lastTimestampRef (refs st))))
      (setLastTimestamp (refs st) ts).
Proof.
  intros Hg. unfold onMotion. cbn [accelerationIncludingGravity restEvent rotationRate refs].
  change (gMeasOf restAccel) with defaultGravity.
  change (gravityRef (setLastTimestamp (refs st) ts)) with (gravityRef (refs st)).
  rewrite Hg. cbn [rotMagOf].
  assert (Hu : gravityUpdate defaultGravity defaultGravity 0 = defaultGravity).
  { unfold gravityUpdate, allowGUpdate, Rltb. rewrite gCandidate_self, vecLen_sub_self.
    split_decs; simpl; first [reflexivity | lra]. }
  assert (Hs : isStationary defaultGravity defaultGravity 0 = true).
  { unfold isStationary, Rltb. rewrite aVertOf_self, vecLen_sub_self, Rabs_R0.
    split_decs; simpl; first [reflexivity | lra]. }
  rewrite Hu, Hs, aVertOf_self, Rmult_0_l, <- Hg, setGravity_setLastTimestamp_self.
  reflexivity.
Qed.

(** One stationary integrator step with zero vertical acceleration. *)
Lemma integrate_rest dt r :
  velocityRef (integrate true 0 dt r) =
    (if Rle_dec (5 / 10) (INR (S (stationarySamplesRef r)) * dt) then 0
     else velocityRef r) /\
  stationarySamplesRef (integrate true 0 dt r) = S (stationarySamplesRef r) /\
  gravityRef (integrate true 0 dt r) = gravityRef r /\
  displacementRef (integrate true 0 dt r) =
    (let d1 := displacementRef r +
               Rmax 0 (if Rle_dec (5 / 10) (INR (S (stationarySamplesRef r)) * dt)
                       then 0 else velocityRef r) * dt in
     let d2 := if Rlt_dec d1 0 then 0 else d1 in
     if Rlt_dec 300 d2 then 300 else d2).
Proof.
  unfold integrate. cbn. rewrite Rmult_0_l, Rplus_0_r. repeat split.
Qed.

Lemma clampDt_in dt : 5 / 1000 <= dt <= 5 / 100 -> clampDt dt = dt.
Proof. intros H. unfold clampDt. split_decs; lra. Qed.

Lemma rawDt_interval i ts last : 0 < i -> rawDt (restEvent (Some i)) ts last = i / 1000.
Proof. intros H. unfold rawDt. simpl. destruct (Rlt_dec 0 i); [reflexivity | lra]. Qed.

(** A measuring state right after upward motion: velocity 10 cm/s, no
    stationary samples yet, last timestamp 100 ms. *)
Definition movingState : Engine :=
  mkEngine (mkMS false true false 0 0 0 0) None true
    (mkRefs defaultGravity 100 10 0 0 0 0 true) (mkWin 1 1 true true).

(** ** C4 *)

(** C4 counterexample: a sample without [interval] arriving at the same
    timestamp as the previous one has a raw [dt] of 0, yet it is not
    dropped: [dt] is clamped to 0.005 s and the displacement moves from 0 to
    0.05 cm. *)
Lemma C4_counterexample :
  rawDt (restEvent None) 100 (lastTimestampRef (refs movingState)) = 0 /\
  displacementRef (refs movingState) = 0 /\
  displacementRef (refs (onMotion 100 (restEvent None) movingState)) = 5 / 100.
Proof.
  assert (Hraw : rawDt (restEvent None) 100 100 = 0).
  { unfold rawDt. simpl. destruct (Req_dec_T 100 0); lra. }
  split; [exact Hraw|]. split; [reflexivity|].
  rewrite onMotion_rest by reflexivity.
  change (lastTimestampRef (refs movingState)) with 100. rewrite Hraw.
  assert (Hc : clampDt 0 = 5 / 1000) by (unfold clampDt; split_decs; lra).
  rewrite Hc.
  destruct (integrate_rest (5 / 1000) (setLastTimestamp (refs movingState) 100))
    as (_ & _ & _ & ->).
  simpl. split_decs; lra.
Qed.

(** C4 (amended): no sample is dropped for its [dt]; the raw [dt] is clamped
    into [0.005, 0.05] s and the sample is integrated with it.  Only a
    sample without [accelerationIncludingGravity] is skipped, and it still
    records its timestamp as the last one. *)
Theorem C4_dt_clamped ts e st :
  let dt := clampDt (rawDt e ts (lastTimestampRef (refs st))) in
  5 / 1000 <= dt <= 5 / 100 /\
  match accelerationIncludingGravity e with
  | None => onMotion ts e st = setRefs st (setLastTimestamp (refs st) ts)
  | Some ag =>
      let gNew := gravityUpdate (gravityRef (refs st)) (gMeasOf ag)
                    (rotMagOf (rotationRate e)) in
      refs (onMotion ts e st) =
        integrate (isStationary (gMeasOf ag) gNew (rotMagOf (rotationRate e)))
          (aVertOf (gMeasOf ag) gNew * 100) dt
          (setGravity (setLastTimestamp (refs st) ts) gNew)
  end.
Proof.
  cbv zeta. split; [apply clampDt_range|].
  unfold onMotion. destruct (accelerationIncludingGravity e); reflexivity.
Qed.

(** ** C2 *)

(** The accumulator of the claim: each stationary sample adds its [dt], any
    other sample resets it. *)
Definition specStationaryAccum (acc : R) (stationary : bool) (dt : R) : R :=
  if stationary then acc + dt else 0.

Definition runRest (st : Engine) (intervals : list R) : Engine :=
  fold_left (fun s i => onMotion 0 (restEvent (Some i)) s) intervals st.

Lemma runRest_velocity intervals st :
  gravityRef (refs st) = defaultGravity ->
  (forall k i, nth_error intervals k = Some i ->
     5 <= i <= 50 /\
     INR (S (stationarySamplesRef (refs st) + k)) * (i / 1000) < 5 / 10) ->
  velocityRef (refs (runRest st intervals)) = velocityRef (refs st) /\
  stationarySamplesRef (refs (runRest st intervals)) =
    (stationarySamplesRef (refs st) + List.length intervals)%nat /\
  gravityRef (refs (runRest st intervals)) = defaultGravity.
Proof.
  unfold runRest. revert st.
  induction intervals as [|i l IH]; intros st Hg Hk; simpl.
  - rewrite Nat.add_0_r. auto.
  - destruct (Hk 0%nat i eq_refl) as [Hi Hc0].
    set (st1 := onMotion 0 (restEvent (Some i)) st).
    assert (Hr : refs st1 = integrate true 0 (i / 1000) (setLastTimestamp (refs st) 0)).
    { unfold st1. rewrite onMotion_rest by exact Hg.
      rewrite rawDt_interval by lra. rewrite clampDt_in by lra. reflexivity. }
    destruct (integrate_rest (i / 1000) (setLastTimestamp (refs st) 0))
      as (Hv & Hs & Hg1 & _).
    cbn [stationarySamplesRef velocityRef gravityRef setLastTimestamp] in Hv, Hs, Hg1.
    rewrite Nat.add_0_r in Hc0.
    destruct (Rle_dec (5 / 10) (INR (S (stationarySamplesRef (refs st))) * (i / 1000)));
      [lra|].
    destruct (IH st1) as (IHv & IHs & IHg).
    + rewrite Hr, Hg1. exact Hg.
    + intros k j Hj. rewrite Hr, Hs.
      destruct (Hk (S k) j Hj) as [Hj1 Hj2]. split; [exact Hj1|].
      rewrite Nat.add_succ_r in Hj2. exact Hj2.
    + rewrite IHv, IHs, IHg, Hr, Hv, Hs. repeat split. lia.
Qed.

(** Nine samples 50 ms apart, one 49 ms, one 5 ms: 0.504 s in total. *)
Definition zuptIntervals : list R := [50; 50; 50; 50; 50; 50; 50; 50; 50; 49; 5].

(** C2 counterexample: from [movingState], eleven rest samples, all classified
    stationary (the stationary counter reaches 11), accumulate 0.504 s of
    stationary time, yet the velocity is still 10 cm/s: the code compares
    [count * dt] of the current sample (at most 11 * 0.005 s on the last one)
    with 0.5 s, not the accumulated time. *)
Lemma C2_counterexample :
  fold_left (fun acc i => specStationaryAccum acc true (i / 1000)) zuptIntervals 0
    = 504 / 1000 /\
  stationarySamplesRef (refs (runRest movingState zuptIntervals)) = 11%nat /\
  velocityRef (refs (runRest movingState zuptIntervals)) = 10.
Proof.
  split; [unfold specStationaryAccum; simpl; lra|].
  destruct (runRest_velocity zuptIntervals movingState) as (Hv & Hs & _).
  - reflexivity.
  - intros k i H. cbn [refs movingState stationarySamplesRef].
    do 11 (destruct k as [|k];
           [simpl in H; injection H as <-; simpl; split; lra|]).
    destruct k; simpl in H; discriminate.
  - rewrite Hv, Hs. split; reflexivity.
Qed.

(** Stationary samples processed at a fixed [dt]. *)
Definition integrateRun (dt : R) (aVerts : list R) (r : Refs) : Refs :=
  fold_left (fun r a => integrate true a dt r) aVerts r.

Lemma integrateRun_count dt aVerts r :
  stationarySamplesRef (integrateRun dt aVerts r) =
    (stationarySamplesRef r + List.length aVerts)%nat.
Proof.
  unfold integrateRun. revert r.
  induction aVerts as [|a l IH]; intros r; simpl.
  - lia.
  - rewrite IH. simpl. lia.
Qed.

(** C2 (amended): the code counts consecutive stationary samples (any other
    sample resets the count to 0) and forces the velocity to exactly 0 on a
    sample when the count times that sample's [dt] reaches 0.5 s.  So a run
    of stationary samples at a constant [dt] spanning at least 0.5 s ends
    with velocity exactly 0. *)
Theorem C2_zupt_sample_count s a dt r :
  stationarySamplesRef (integrate s a dt r) =
    (if s then S (stationarySamplesRef r) else 0%nat) /\
  (5 / 10 <= INR (stationarySamplesRef (integrate s a dt r)) * dt ->
   velocityRef (integrate s a dt r) = 0) /\
  (forall aVerts, 0 <= dt -> 5 / 10 <= INR (List.length aVerts) * dt ->
   velocityRef (integrateRun dt aVerts r) = 0).
Proof.
  split; [reflexivity|]. split.
  - unfold integrate. cbn [velocityRef stationarySamplesRef]. intros H.
    destruct (Rle_dec _ _); [reflexivity | lra].
  - intros aVerts Hdt.
    induction aVerts as [|a' l _] using rev_ind; intros H.
    + simpl in H. lra.
    + unfold integrateRun. rewrite fold_left_app. cbn [fold_left].
      fold (integrateRun dt l r).
      unfold integrate at 1. cbn [velocityRef].
      destruct (Rle_dec _ _) as [|Hn]; [reflexivity|]. exfalso. apply Hn.
      rewrite integrateRun_count.
      rewrite length_app in H. simpl in H.
      apply Rle_trans with (1 := H). apply Rmult_le_compat_r; [exact Hdt|].
      apply le_INR. lia.
Qed.

(** ** C7 *)

(** The arithmetic mean of the collected vectors, componentwise. *)
Definition specMean (vs : list Vec3) : Vec3 :=
  let n := INR (List.length vs) in
  mkVec3 (fold_right Rplus 0 (map vx vs) / n)
         (fold_right Rplus 0 (map vy vs) / n)
         (fold_right Rplus 0 (map vz vs) / n).

Lemma fold_vecAdd vs acc :
  fold_left vecAdd vs acc =
    mkVec3 (vx acc + fold_right Rplus 0 (map vx vs))
           (vy acc + fold_right Rplus 0 (map vy vs))
           (vz acc + fold_right Rplus 0 (map vz vs)).
Proof.
  revert acc. induction vs as [|v vs IH]; intros acc; simpl.
  - destruct acc. simpl. f_equal; ring.
  - rewrite IH. simpl. f_equal; ring.
Qed.

(** C7: with permission granted, [calibrate] seeds the gravity estimate with
    the arithmetic mean of the vectors collected in the window and marks the
    session calibrated; when the window yields no sample it reports
    ["No sensor data during calibration"] and leaves the gravity estimate
    and the calibration flag as they were. *)
Theorem C7_calibration_mean o window st :
  permissionGranted st = true ->
  let st' := calibrate o window st in
  match collect window with
  | [] => gravityRef (refs st') = gravityRef (refs st) /\
          hasCalibratedRef (refs st') = hasCalibratedRef (refs st) /\
          error st' = Some "No sensor data during calibration"%string
  | vs => gravityRef (refs st') = specMean vs /\
          hasCalibratedRef (refs st') = true /\ error st' = None
  end.
Proof.
  intros Hp. cbv zeta. unfold calibrate. rewrite Hp. unfold calibrateWindow.
  destruct (collect window) as [|v vs] eqn:Hc; cbn [List.length Nat.eqb].
  - repeat split.
  - cbn. repeat split.
    rewrite fold_vecAdd. unfold specMean, vecScale. simpl.
    f_equal; unfold Rdiv; ring.
Qed.

(** ** Witnesses *)

(** A sample rotating at 3 deg/s while reading the default gravity. *)
Definition spinEvent : DeviceMotionEvent :=
  mkEvent (Some restAccel) (Some (mkRotRate (Some 3) (Some 0) (Some 0))) (Some 20).

Lemma C3_witness :
  accelerationIncludingGravity spinEvent = Some restAccel /\
  3 <= rotMagOf (rotationRate spinEvent) /\
  gravityRef (refs (onMotion 0 spinEvent initialEngine)) = defaultGravity.
Proof.
  assert (Hr : 3 <= rotMagOf (rotationRate spinEvent)).
  { change (rotMagOf (rotationRate spinEvent)) with (sqrt (3 ^ 2 + 0 ^ 2 + 0 ^ 2)).
    replace (3 ^ 2 + 0 ^ 2 + 0 ^ 2) with (3 * 3) by ring.
    rewrite sqrt_square by lra. lra. }
  split; [reflexivity|]. split; [exact Hr|].
  apply (proj1 (C3_gravity_freeze 0 spinEvent initialEngine restAccel eq_refl)).
  right. exact Hr.
Defined.

Lemma C2_witness :
  0 <= 2 / 100 /\ 5 / 10 <= INR (List.length (repeat 0 25)) * (2 / 100) /\
  velocityRef (integrateRun (2 / 100) (repeat 0 25) (refs movingState)) = 0.
Proof.
  assert (H1 : 0 <= 2 / 100) by lra.
  assert (H2 : 5 / 10 <= INR (List.length (repeat 0 25)) * (2 / 100))
    by (rewrite repeat_length; simpl; lra).
  split; [exact H1|]. split; [exact H2|].
  exact (proj2 (proj2 (C2_zupt_sample_count true 0 (2 / 100) (refs movingState)))
           (repeat 0 25) H1 H2).
Defined.

Lemma C5_witness : 0 <= 0 < 1 / 20 /\ confidence (snapshot 0 true initialMS) <= 63.
Proof.
  assert (H : 0 <= 0 < 1 / 20) by lra.
  split; [exact H|].
  exact (proj2 (C5_confidence_rounded 0 true initialMS) H).
Defined.

(** A session whose permission has been granted, before calibration. *)
Definition calibrationStart : Engine :=
  mkEngine initialMS None true initialRefs (mkWin 0 0 false false).

Lemma C7_witness :
  permissionGranted calibrationStart = true /\
  gravityRef (refs (calibrate Granted [restEvent None; restEvent None] calibrationStart))
    = specMean [defaultGravity; defaultGravity].
Proof.
  split; [reflexivity|].
  exact (proj1 (C7_calibration_mean Granted [restEvent None; restEvent None]
                  calibrationStart eq_refl)).
Defined.

(** * Further properties of the canonical hook *)

Lemma IZR_le_of_lt_succ (z n : Z) : IZR z < IZR n + 1 -> IZR z <= IZR n.
Proof.
  intros H. rewrite <- plus_IZR in H. apply lt_IZR in H. apply IZR_le. lia.
Qed.

Lemma js_round_is_int x : exists z, js_round x = IZR z.
Proof. exists (Int_part (x + / 2)). reflexivity. Qed.

(** Rounding a number between two integers stays between them. *)
Lemma js_round_between (a b : Z) x :
  IZR a <= x <= IZR b -> IZR a <= js_round x <= IZR b.
Proof.
  intros H. destruct (js_round_is_int x) as [z Hz].
  pose proof (js_round_bounds x) as Hb. rewrite Hz in *. split.
  - assert (IZR (a - 1) < IZR z) by (rewrite minus_IZR; lra).
    apply lt_IZR in H0. apply IZR_le. lia.
  - apply IZR_le_of_lt_succ. lra.
Qed.

Lemma js_floor_nonneg r : 0 <= r -> 0 <= js_floor r.
Proof.
  intros H. pose proof (js_floor_bounds r) as Hb.
  unfold js_floor in *. apply IZR_le.
  assert (IZR (-1) < IZR (Int_part r)) by lra. apply lt_IZR in H0. lia.
Qed.

(** [toFeetInches]: for a non-negative length, [feet] is a non-negative
    integer, [inches] lies in [0, 12] (it can read 12.0 after rounding),
    [feet * 12 + inches] is within 0.05 in of the length in inches, and the
    returned [cm] is within 0.05 cm of the input. *)
Theorem toFeetInches_spec cm :
  0 <= cm ->
  let '(feet, inches, cmR) := toFeetInches cm in
  (exists z, feet = IZR z) /\ 0 <= feet /\ 0 <= inches <= 12 /\
  Rabs (feet * 12 + inches - cm / 2.54) <= 1 / 20 /\
  Rabs (cmR - cm) <= 1 / 20.
Proof.
  intros Hcm. unfold toFeetInches, js_mod, js_trunc.
  set (t := cm / 2.54).
  assert (Ht : 0 <= t) by (unfold t; apply Rmult_le_pos; lra).
  assert (Ht12 : 0 <= t / 12) by (apply Rmult_le_pos; lra).
  destruct (Rle_dec 0 (t / 12)) as [_|]; [|lra].
  pose proof (js_floor_bounds (t / 12)) as Hf.
  pose proof (js_floor_nonneg _ Ht12) as Hf0.
  set (f := js_floor (t / 12)) in *.
  assert (Hm : 0 <= (t - 12 * f) * 10 <= 120) by lra.
  pose proof (js_round_between 0 120 _ Hm) as Hr.
  pose proof (js_round_bounds ((t - 12 * f) * 10)) as Hr2.
  pose proof (js_round_bounds (cm * 10)) as Hc.
  split; [exists (Int_part (t / 12)); reflexivity|].
  split; [exact Hf0|]. split; [lra|].
  split; unfold Rabs; repeat destruct Rcase_abs; lra.
Qed.

(** [vecNorm]: a non-zero vector is scaled to unit length; the zero vector
    is returned unchanged rather than divided by zero. *)
Theorem vecNorm_spec a :
  vecNorm zeroVec = zeroVec /\
  (vecLen a <> 0 -> vecLen (vecNorm a) = 1).
Proof.
  split.
  - unfold vecNorm.
    assert (H0 : vecLen zeroVec = 0).
    { unfold vecLen, zeroVec. simpl. replace (0 * 0 + 0 * 0 + 0 * 0) with 0 by ring.
      apply sqrt_0. }
    rewrite H0. destruct (Req_dec_T 0 0); [|congruence].
    unfold zeroVec. simpl. f_equal; field.
  - intros H. unfold vecNorm. destruct (Req_dec_T (vecLen a) 0); [contradiction|].
    set (s := vx a * vx a + vy a * vy a + vz a * vz a).
    assert (Hs : 0 <= s) by (unfold s; nra).
    assert (Hl : vecLen a * vecLen a = s) by (apply sqrt_sqrt, Hs).
    unfold vecLen at 1. simpl.
    replace (vx a / vecLen a * (vx a / vecLen a) + vy a / vecLen a * (vy a / vecLen a)
             + vz a / vecLen a * (vz a / vecLen a))
      with (s / (vecLen a * vecLen a)) by (unfold s; field; exact H).
    rewrite Hl. unfold Rdiv. rewrite Rinv_r; [apply sqrt_1|].
    intros Hs0. apply H. unfold vecLen. fold s. rewrite Hs0. apply sqrt_0.
Qed.

(** The snapshot for a peak in [0, 300]: the height shown is in [0, 300]
    and within 0.1 cm of the peak; the confidence is in [60, 98]. *)
Lemma snapshot_bounds p s m :
  0 <= p <= 300 ->
  0 <= heightCm (snapshot p s m) <= 300 /\
  Rabs (heightCm (snapshot p s m) - p) <= 1 / 10 /\
  60 <= confidence (snapshot p s m) <= 98.
Proof.
  intros Hp. rewrite snapshot_confidence.
  change (heightCm (snapshot p s m))
    with (js_round (js_round (p * 10) / 10 * 10) / 10).
  assert (Ha : IZR 0 <= p * 10 <= IZR 3000) by lra.
  pose proof (js_round_between _ _ _ Ha) as Ha1.
  pose proof (js_round_bounds (p * 10)) as Ha2.
  generalize dependent (js_round (p * 10)). intros a Ha1 Ha2.
  replace (a / 10 * 10) with a by field.
  pose proof (js_round_between 0 3000 a Ha1) as Hb1.
  pose proof (js_round_bounds a) as Hb2.
  generalize dependent (js_round a). intros b Hb1 Hb2.
  cbv zeta.
  assert (Hc : 60 <= Rmin 95 (60 + Rmin 35 (b / 10 / 200 * 35)) <= 95)
    by (split_decs; lra).
  set (c := Rmin 95 (60 + Rmin 35 (b / 10 / 200 * 35))) in *.
  assert (Hconf : IZR 600 <= (if s then Rmin (995 / 10) (c + 3) else c) * 10 <= IZR 980)
    by (destruct s; split_decs; lra).
  pose proof (js_round_between _ _ _ Hconf) as Hr.
  split; [lra|]. split; [unfold Rabs; destruct Rcase_abs; lra | lra].
Qed.

Lemma onMotion_measurementState ts e st :
  match accelerationIncludingGravity e with
  | None => measurementState (onMotion ts e st) = measurementState st
  | Some _ => exists s, measurementState (onMotion ts e st) =
                snapshot (peak (onMotion ts e st)) s (measurementState st)
  end.
Proof.
  unfold onMotion. destruct (accelerationIncludingGravity e); [eexists|]; reflexivity.
Qed.

(** After any sample that carries an acceleration, in any reachable state,
    the height shown is in [0, 300] cm and within 0.1 cm of the new peak,
    and the confidence shown is in [60, 98] (its 99.5 cap is never reached);
    a sample without acceleration leaves the shown values unchanged. *)
Theorem reported_snapshot_bounds ops ts e :
  let st := exec ops initialEngine in
  let st' := onMotion ts e st in
  match accelerationIncludingGravity e with
  | None => measurementState st' = measurementState st
  | Some _ =>
      0 <= heightCm (measurementState st') <= 300 /\
      Rabs (heightCm (measurementState st') - peak st') <= 1 / 10 /\
      60 <= confidence (measurementState st') <= 98
  end.
Proof.
  cbv zeta.
  pose proof (onMotion_measurementState ts e (exec ops initialEngine)) as Hm.
  destruct (accelerationIncludingGravity e); [|exact Hm].
  destruct Hm as [s ->].
  apply snapshot_bounds.
  destruct (reachable_bounds ops) as (Hd & Hp & Hdp).
  apply (onMotion_P (fun d p => 0 <= d <= 300 /\ 0 <= p <= 300 /\ d <= p)).
  - intros s' av dt r Hdt (Hd' & Hp' & Hdp'). apply integrate_bounds; lra.
  - auto.
Qed.

(** [calibrate] without permission only runs the permission request: even
    when the request is granted it returns without collecting samples, so the
    refs, the shown state and the listeners are untouched; permission is
    recorded only when every prompt is granted. *)
Theorem calibrate_without_permission o window st :
  permissionGranted st = false ->
  let st' := calibrate o window st in
  refs st' = refs st /\ measurementState st' = measurementState st /\
  win st' = win st /\
  permissionGranted st' = match o with Granted => true | _ => false end.
Proof.
  intros Hp. cbv zeta. unfold calibrate. rewrite Hp.
  destruct o; simpl; auto.
Qed.

(** One [startMeasurement] followed by [stopMeasurement] removes the
    listener it added: afterwards a motion event changes nothing. *)
Theorem start_stop_detaches st ts e :
  motionListeners (win st) = 0%nat ->
  let st' := stopMeasurement (startMeasurement st) in
  motionListeners (win st') = 0%nat /\ imu_onMotion (win st') = false /\
  deliver ts e st' = st'.
Proof.
  intros H0. cbv zeta.
  assert (Hw : motionListeners (win (stopMeasurement (startMeasurement st))) = 0%nat /\
               imu_onMotion (win (stopMeasurement (startMeasurement st))) = false).
  { unfold stopMeasurement, startMeasurement.
    destruct (hasCalibratedRef (refs st)); cbn [negb].
    - cbn. split; [exact H0 | reflexivity].
    - destruct st as [m er pg r [ml ol om oo]]. cbn in *. subst ml.
      destruct om, oo; cbn; split; reflexivity. }
  destruct Hw as [Hl Hi]. split; [exact Hl|]. split; [exact Hi|].
  unfold deliver. rewrite Hl. reflexivity.
Qed.

(** Starting twice before stopping registers two listeners, but only the
    latest is remembered: stopping and then resetting removes one of them,
    so the other keeps processing motion events (here it stamps the
    timestamp into the reset refs). *)
Theorem double_start_leaks_listener st ts e :
  motionListeners (win st) = 0%nat -> hasCalibratedRef (refs st) = true ->
  let st' := resetMeasurement (stopMeasurement (startMeasurement (startMeasurement st))) in
  motionListeners (win st') = 1%nat /\ imu_onMotion (win st') = false /\
  lastTimestampRef (refs (deliver ts e st')) = ts.
Proof.
  intros H0 Hc. cbv zeta.
  unfold startMeasurement at 2. rewrite Hc. cbn [negb].
  unfold startMeasurement. cbn [refs hasCalibratedRef negb].
  rewrite Hc, H0. cbn.
  split; [reflexivity|]. split; [reflexivity|].
  unfold deliver. cbn [win motionListeners Nat.iter resetMeasurement detach].
  unfold onMotion. destruct (accelerationIncludingGravity e); reflexivity.
Qed.

(** After [resetMeasurement] the calibration is gone: [startMeasurement]
    reports ["Please calibrate first"] and does not start measuring. *)
Theorem reset_then_start_needs_calibration st :
  let st' := startMeasurement (resetMeasurement st) in
  error st' = Some "Please calibrate first"%string /\
  isMeasuring (measurementState st') = false /\
  win st' = win (resetMeasurement st).
Proof. cbv zeta. repeat split. Qed.

(** Samples handled by one listener, in order. *)
Definition runSamples (samples : list (R * DeviceMotionEvent)) (st : Engine) : Engine :=
  fold_left (fun s '(t, e) => onMotion t e s) samples st.

Definition hasAccel (te : R * DeviceMotionEvent) : bool :=
  match accelerationIncludingGravity (snd te) with Some _ => true | None => false end.

(** [totalSamplesRef] counts exactly the samples that carried an
    acceleration; samples without one are not counted. *)
Theorem totalSamples_counts_processed samples st :
  totalSamplesRef (refs (runSamples samples st)) =
    (totalSamplesRef (refs st) + List.length (filter hasAccel samples))%nat.
Proof.
  unfold runSamples. revert st.
  induction samples as [|[t e] l IH]; intros st; simpl; [lia|].
  rewrite IH. unfold hasAccel, onMotion. simpl.
  destruct (accelerationIncludingGravity e); simpl; lia.
Qed.

(** ** The [HeightMeasurement] component (src/src/components/HeightMeasurement.tsx)

    The component imports [src/src/hooks/useIMUHeight.ts], an earlier copy of
    the hook whose [onMotion] differs but whose permission, calibration,
    start, stop and reset operations register and remove listeners exactly as
    the canonical hook modelled here; [onMotion] touches no listener in
    either. *)

(** The hook callbacks the component offers in a state: "Calibrate at
    Ground Level" and "Start Measurement" while no flag is set (lines
    138-160), "Stop & Finish" while measuring (162-171), "Measure Again"
    ([resetMeasurement]) once complete (173-183).  The permission button is
    on the instruction screen, shown only while permission is not granted
    (29-65); motion events arrive at any time. *)
Definition uiEnabled (st : Engine) (op : Op) : bool :=
  let m := measurementState st in
  let idle := (negb (isCalibrating m) && negb (isMeasuring m) && negb (isComplete m))%bool in
  match op with
  | OpRequestPermission _ => negb (permissionGranted st)
  | OpCalibrate _ _ => idle
  | OpStart => idle
  | OpStop => isMeasuring m
  | OpReset => isComplete m
  | OpMotion _ _ => true
  end.

Definition uiStep (st : Engine) (op : Op) : Engine :=
  if uiEnabled st op then step st op else st.

Definition execUI (ops : list Op) (st : Engine) : Engine := fold_left uiStep ops st.

Definition listenerInv (st : Engine) : Prop :=
  motionListeners (win st) = (if isMeasuring (measurementState st) then 1 else 0)%nat /\
  imu_onMotion (win st) = isMeasuring (measurementState st).

Lemma onMotion_win_measuring ts e st :
  win (onMotion ts e st) = win st /\
  isMeasuring (measurementState (onMotion ts e st)) = isMeasuring (measurementState st).
Proof.
  unfold onMotion. destruct (accelerationIncludingGravity e); split; reflexivity.
Qed.

Lemma deliver_win_measuring ts e st :
  win (deliver ts e st) = win st /\
  isMeasuring (measurementState (deliver ts e st)) = isMeasuring (measurementState st).
Proof.
  unfold deliver. generalize (motionListeners (win st)) as n.
  induction n as [|n [IHw IHm]]; [split; reflexivity|].
  simpl. destruct (onMotion_win_measuring ts e (Nat.iter n (onMotion ts e) st)) as [Hw Hm].
  rewrite Hw, Hm. split; assumption.
Qed.

Lemma uiStep_listenerInv st op : listenerInv st -> listenerInv (uiStep st op).
Proof.
  unfold uiStep. destruct (uiEnabled st op) eqn:He; [|auto].
  destruct st as [[ca me co hc hf hi cf] er pg r [ml ol om oo]].
  unfold listenerInv; cbn [win measurementState motionListeners imu_onMotion isMeasuring].
  intros [Hl Hi].
  destruct op as [o|o w| | | |t e]; cbn in He.
  - destruct o; split; assumption.
  - subst. destruct ca, me, co; try discriminate He. cbn in *.
    unfold calibrate. cbn. destruct pg.
    + unfold calibrateWindow. cbn. destruct (Nat.eqb _ 0); cbn; split; reflexivity.
    + destruct o; split; reflexivity.
  - subst. destruct ca, me, co; try discriminate He. cbn in *.
    unfold startMeasurement. cbn. destruct (hasCalibratedRef r); cbn; split; reflexivity.
  - subst. cbn in *. unfold stopMeasurement, detach. cbn. destruct oo; split; reflexivity.
  - subst. unfold resetMeasurement, detach. cbn.
    destruct me; cbn; destruct oo; split; reflexivity.
  - cbn [step]. destruct (deliver_win_measuring t e
      (mkEngine (mkMS ca me co hc hf hi cf) er pg r (mkWin ml ol om oo))) as [Hw Hm].
    rewrite Hw, Hm. split; assumption.
Qed.

(** Driven through the component's buttons, the hook has exactly one
    motion listener while measuring and none otherwise: each motion event
    is processed at most once, and none after "Stop & Finish". *)
Theorem ui_single_motion_listener ops :
  let st := execUI ops initialEngine in
  motionListeners (win st) = (if isMeasuring (measurementState st) then 1 else 0)%nat /\
  imu_onMotion (win st) = isMeasuring (measurementState st).
Proof.
  cbv zeta. change (listenerInv (execUI ops initialEngine)).
  assert (H0 : listenerInv initialEngine) by (split; reflexivity).
  unfold execUI. revert H0. generalize initialEngine as st.
  induction ops as [|op ops IH]; intros st H; simpl.
  - exact H.
  - apply IH, uiStep_listenerInv, H.
Qed.

(** ** Witnesses for the properties above that carry hypotheses *)

Lemma toFeetInches_spec_witness :
  0 <= 170 /\
  (let '(feet, inches, cmR) := toFeetInches 170 in
   (exists z, feet = IZR z) /\ 0 <= feet /\ 0 <= inches <= 12 /\
   Rabs (feet * 12 + inches - 170 / 2.54) <= 1 / 20 /\
   Rabs (cmR - 170) <= 1 / 20).
Proof.
  assert (H : 0 <= 170) by lra.
  split; [exact H|]. exact (toFeetInches_spec 170 H).
Defined.

Lemma vecNorm_spec_witness :
  vecLen defaultGravity <> 0 /\ vecLen (vecNorm defaultGravity) = 1.
Proof.
  assert (H : vecLen defaultGravity <> 0).
  { unfold vecLen, defaultGravity. simpl. apply Rgt_not_eq, sqrt_lt_R0. lra. }
  split; [exact H|]. exact (proj2 (vecNorm_spec defaultGravity) H).
Defined.

Lemma calibrate_without_permission_witness :
  permissionGranted initialEngine = false /\
  refs (calibrate Granted [] initialEngine) = refs initialEngine /\
  permissionGranted (calibrate Granted [] initialEngine) = true.
Proof.
  split; [reflexivity|].
  destruct (calibrate_without_permission Granted [] initialEngine eq_refl)
    as (Hr & _ & _ & Hp).
  split; [exact Hr | exact Hp].
Defined.

Lemma start_stop_detaches_witness :
  motionListeners (win calibrationStart) = 0%nat /\
  deliver 0 spinEvent (stopMeasurement (startMeasurement calibrationStart))
    = stopMeasurement (startMeasurement calibrationStart).
Proof.
  split; [reflexivity|].
  exact (proj2 (proj2 (start_stop_detaches calibrationStart 0 spinEvent eq_refl))).
Defined.

(** A calibrated session, before measuring. *)
Definition calibratedIdle : Engine :=
  mkEngine initialMS None true (mkRefs defaultGravity 0 0 0 0 0 0 true)
    (mkWin 0 0 false false).

Lemma double_start_leaks_listener_witness :
  motionListeners (win calibratedIdle) = 0%nat /\
  hasCalibratedRef (refs calibratedIdle) = true /\
  lastTimestampRef (refs (deliver 1000 spinEvent
    (resetMeasurement (stopMeasurement (startMeasurement
      (startMeasurement calibratedIdle)))))) = 1000.
Proof.
  split; [reflexivity|]. split; [reflexivity|].
  exact (proj2 (proj2 (double_start_leaks_listener calibratedIdle 1000 spinEvent
                         eq_refl eq_refl))).
Defined.

(** * The conservative [useIMUHeight] variant (src/unnamed/part_000, lines 1-302)

    Same vector helpers, [toFeetInches] and permission flow as the canonical
    hook; its refs track an accumulated upward height instead of a
    displacement and a peak. *)
Module Conservative.

(** The refs (lines 49-55). *)
Record Refs := mkRefs {
  gravityRef : Vec3;
  lastTimestampRef : R;
  totalHeightRef : R;
  velocityRef : R;
  stationaryTimeRef : R;
  movingUpTimeRef : R;
  hasCalibratedRef : bool
}.

Record Engine := mkEngine {
  measurementState : MeasurementState;
  error : option string;
  permissionGranted : bool;
  refs : Refs;
  win : Win
}.

Definition initialRefs : Refs := mkRefs defaultGravity 0 0 0 0 0 false.

Definition initialEngine : Engine :=
  mkEngine initialMS None false initialRefs (mkWin 0 0 false false).

Definition setRefs (st : Engine) (r : Refs) : Engine :=
  mkEngine (measurementState st) (error st) (permissionGranted st) r (win st).
Definition setMS (st : Engine) (m : MeasurementState) : Engine :=
  mkEngine m (error st) (permissionGranted st) (refs st) (win st).
Definition setError (st : Engine) (e : option string) : Engine :=
  mkEngine (measurementState st) e (permissionGranted st) (refs st) (win st).
Definition setLastTimestamp (r : Refs) (t : R) : Refs :=
  mkRefs (gravityRef r) t (totalHeightRef r) (velocityRef r)
    (stationaryTimeRef r) (movingUpTimeRef r) (hasCalibratedRef r).

(** [dt] (line 161): [lastTimestampRef.current ? Math.min(0.05, (tsNow -
    last) / 1000) : 0.02]. *)
Definition dtOf (tsNow last : R) : R :=
  if Req_dec_T last 0 then 2 / 100 else Rmin (5 / 100) ((tsNow - last) / 1000).

(** Lines 178-200: the motion classes and the velocity update, then the
    height accumulation and its clamp (lines 203-208). *)
Definition motionStep (stationary movingUp : bool) (aVertCm dt : R) (r : Refs) : Refs :=
  let '(sT, muT, v) :=
    if stationary then
      let sT := stationaryTimeRef r + dt in
      (sT, 0, if Rlt_dec (3 / 10) sT then 0 else velocityRef r)
    else if movingUp then
      (0, movingUpTimeRef r + dt,
       Rmax 0 (Rmin 80 (velocityRef r + aVertCm * dt)))
    else (0, 0, velocityRef r * (9 / 10)) in
  let h1 := if (Rltb 1 v && Rltb (1 / 10) muT)%bool
            then totalHeightRef r + v * dt else totalHeightRef r in
  let h2 := Rmax 0 (Rmin 250 h1) in
  mkRefs (gravityRef r) (lastTimestampRef r) h2 v sT muT (hasCalibratedRef r).

(** Lines 210-223: the snapshot written to the React state. *)
Definition snapshot (totalHeight : R) (stationary : bool) (m : MeasurementState)
  : MeasurementState :=
  let cm := js_round (totalHeight * 10) / 10 in
  let '(feet, inches, cmRounded) := toFeetInches cm in
  let conf := if (stationary && Rltb 10 cm)%bool then 95 else 75 in
  mkMS (isCalibrating m) (isMeasuring m) (isComplete m) cmRounded feet inches conf.

(** [onMotion] (lines 158-224).  [aVert] is [vecDot(aLin, up)] with
    [up = vecNorm(-gravity)], i.e. [aVertOf gMeas gravity]. *)
Definition onMotion (tsNow : R) (e : DeviceMotionEvent) (st : Engine) : Engine :=
  let r := refs st in
  let dt := dtOf tsNow (lastTimestampRef r) in
  let r1 := setLastTimestamp r tsNow in
  match accelerationIncludingGravity e with
  | None => setRefs st r1
  | Some ag =>
      if Rle_dec dt 0 then setRefs st r1 else
      let gMeas := gMeasOf ag in
      let gravity := gravityRef r1 in
      let aVert := aVertOf gMeas gravity in
      let stationary :=
        (Rltb (Rabs aVert) (2 / 100) && Rltb (vecLen (vecSub gMeas gravity)) (5 / 100))%bool in
      let movingUp := Rltb (5 / 100) aVert in
      let r2 := motionStep stationary movingUp (aVert * 100) dt r1 in
      mkEngine (snapshot (totalHeightRef r2) stationary (measurementState st))
        (error st) (permissionGranted st) r2 (win st)
  end.

(** [requestSensorPermission] (lines 58-85). *)
Definition requestSensorPermission (o : PermissionOutcome) (st : Engine) : Engine :=
  match o with
  | Granted => mkEngine (measurementState st) None true (refs st) (win st)
  | MotionDenied => setError st (Some "Motion sensor permission denied"%string)
  | OrientationDenied => setError st (Some "Orientation sensor permission denied"%string)
  | RequestThrew => setError st (Some "Failed to request sensor permissions"%string)
  end.

(** The part of [calibrate] after the permission gate (lines 93-130). *)
Definition calibrateWindow (window : list DeviceMotionEvent) (st : Engine) : Engine :=
  let m := measurementState st in
  let st1 := setMS (setError st None)
      (mkMS true (isMeasuring m) (isComplete m) (heightCm m) (heightFt m)
         (heightInches m) (confidence m)) in
  let samples := collect window in
  if Nat.eqb (List.length samples) 0 then
    let m1 := measurementState st1 in
    setMS (setError st1 (Some "No sensor data during calibration"%string))
      (mkMS false (isMeasuring m1) (isComplete m1) (heightCm m1) (heightFt m1)
         (heightInches m1) (confidence m1))
  else
    let avg := fold_left vecAdd samples zeroVec in
    let g := vecScale avg (1 / INR (List.length samples)) in
    let r := refs st1 in
    let r1 := mkRefs g (lastTimestampRef r) (totalHeightRef r) (velocityRef r)
                (stationaryTimeRef r) (movingUpTimeRef r) true in
    setMS (setRefs st1 r1) (mkMS false false false 0 0 0 0).

(** [calibrate] (lines 88-131): after requesting permission it tests the
    [permissionGranted] captured when the callback was made, still false. *)
Definition calibrate (o : PermissionOutcome) (window : list DeviceMotionEvent)
  (st : Engine) : Engine :=
  if permissionGranted st then calibrateWindow window st
  else requestSensorPermission o st.

(** [startMeasurement] (lines 133-235). *)
Definition startMeasurement (st : Engine) : Engine :=
  let r := refs st in
  if negb (hasCalibratedRef r) then setError st (Some "Please calibrate first"%string)
  else
    let m := measurementState st in
    let w := win st in
    mkEngine (mkMS (isCalibrating m) true false 0 0 0 0) None (permissionGranted st)
      (mkRefs (gravityRef r) 0 0 0 0 0 (hasCalibratedRef r))
      (mkWin (S (motionListeners w)) (S (orientationListeners w)) true true).

(** [stopMeasurement] (lines 237-253). *)
Definition stopMeasurement (st : Engine) : Engine :=
  let m := measurementState st in
  mkEngine (mkMS (isCalibrating m) false true (heightCm m) (heightFt m)
              (heightInches m) (confidence m))
    (error st) (permissionGranted st) (refs st) (detach (win st)).

(** [resetMeasurement] (lines 255-284). *)
Definition resetMeasurement (st : Engine) : Engine :=
  mkEngine initialMS None (permissionGranted st)
    (mkRefs defaultGravity 0 0 0 0 0 false) (detach (win st)).

Definition deliver (tsNow : R) (e : DeviceMotionEvent) (st : Engine) : Engine :=
  Nat.iter (motionListeners (win st)) (onMotion tsNow e) st.

Definition step (st : Engine) (op : Op) : Engine :=
  match op with
  | OpRequestPermission o => requestSensorPermission o st
  | OpCalibrate o window => calibrate o window st
  | OpStart => startMeasurement st
  | OpStop => stopMeasurement st
  | OpReset => resetMeasurement st
  | OpMotion t e => deliver t e st
  end.

Definition exec (ops : list Op) (st : Engine) : Engine := fold_left step ops st.

Abbreviation vel st := (velocityRef (refs st)).
Abbreviation height st := (totalHeightRef (refs st)).

Lemma dtOf_le ts last : dtOf ts last <= 5 / 100.
Proof. unfold dtOf. destruct Req_dec_T; split_decs; lra. Qed.

(** The refs after one sample: either only the timestamp changed, or
    [motionStep] ran with a positive [dt] on the stamped refs. *)
Lemma onMotion_cases ts e st :
  onMotion ts e st = setRefs st (setLastTimestamp (refs st) ts) \/
  exists ag, accelerationIncludingGravity e = Some ag /\
    0 < dtOf ts (lastTimestampRef (refs st)) /\
    refs (onMotion ts e st) =
      motionStep
        (Rltb (Rabs (aVertOf (gMeasOf ag) (gravityRef (refs st)))) (2 / 100) &&
         Rltb (vecLen (vecSub (gMeasOf ag) (gravityRef (refs st)))) (5 / 100))%bool
        (Rltb (5 / 100) (aVertOf (gMeasOf ag) (gravityRef (refs st))))
        (aVertOf (gMeasOf ag) (gravityRef (refs st)) * 100)
        (dtOf ts (lastTimestampRef (refs st)))
        (setLastTimestamp (refs st) ts).
Proof.
  unfold onMotion. destruct (accelerationIncludingGravity e) as [ag|]; [|left; reflexivity].
  destruct (Rle_dec _ 0) as [Hle|Hgt]; [left; reflexivity|].
  right. exists ag. split; [reflexivity|]. split; [lra|reflexivity].
Qed.

Definition boundsInv (r : Refs) : Prop :=
  0 <= velocityRef r <= 80 /\ 0 <= totalHeightRef r <= 250.

Lemma motionStep_bounds s u a dt r :
  0 < dt -> boundsInv r -> boundsInv (motionStep s u a dt r) /\
  totalHeightRef r <= totalHeightRef (motionStep s u a dt r).
Proof.
  intros Hdt [Hv Hh]. unfold boundsInv, motionStep.
  destruct s; [|destruct u]; cbn [totalHeightRef velocityRef];
    unfold Rltb; split_decs; cbn [andb] in *; split_decs; try nra.
Qed.

Lemma onMotion_bounds ts e st : boundsInv (refs st) ->
  boundsInv (refs (onMotion ts e st)) /\ height st <= height (onMotion ts e st).
Proof.
  intros H. destruct (onMotion_cases ts e st) as [-> | (ag & _ & Hdt & ->)].
  - split; [exact H | apply Rle_refl].
  - exact (motionStep_bounds _ _ _ _ (setLastTimestamp (refs st) ts) Hdt H).
Qed.

Lemma deliver_bounds ts e st : boundsInv (refs st) ->
  boundsInv (refs (deliver ts e st)) /\ height st <= height (deliver ts e st).
Proof.
  unfold deliver. generalize (motionListeners (win st)) as n.
  induction n as [|n IH]; intros H; [split; [exact H | apply Rle_refl]|].
  rewrite Nat.iter_succ. destruct (IH H) as [Hi Hm].
  destruct (onMotion_bounds ts e (Nat.iter n (onMotion ts e) st) Hi) as [Ho Hm'].
  split; [exact Ho | lra].
Qed.

Lemma step_bounds st op : boundsInv (refs st) -> boundsInv (refs (step st op)).
Proof.
  intros H. destruct op as [o|o w| | | |t e]; cbn [step].
  - destruct o; exact H.
  - unfold calibrate. destruct (permissionGranted st); [|destruct o; exact H].
    unfold calibrateWindow. destruct (Nat.eqb _ 0); exact H.
  - unfold startMeasurement. destruct (negb _); [exact H|].
    unfold boundsInv; cbn; lra.
  - exact H.
  - unfold boundsInv; cbn; lra.
  - apply deliver_bounds, H.
Qed.

Lemma exec_bounds ops : boundsInv (refs (exec ops initialEngine)).
Proof.
  assert (H0 : boundsInv (refs initialEngine)) by (unfold boundsInv; cbn; lra).
  unfold exec. revert H0. generalize initialEngine as st.
  induction ops as [|op ops IH]; intros st H; [exact H|].
  apply IH, step_bounds, H.
Qed.

(** Height changes only on a moving-up sample after more than 0.1 s of
    moving up; the moving-up timer grows by at most [dt]. *)
Lemma motionStep_grow s u a dt r :
  0 < dt -> boundsInv r ->
  (totalHeightRef (motionStep s u a dt r) = totalHeightRef r \/
   (s = false /\ u = true /\ 1 / 10 < movingUpTimeRef r + dt)) /\
  (0 <= movingUpTimeRef r ->
   0 <= movingUpTimeRef (motionStep s u a dt r) <= movingUpTimeRef r + dt).
Proof.
  intros Hdt [Hv Hh]. unfold motionStep.
  destruct s; [|destruct u]; cbn [totalHeightRef movingUpTimeRef];
    unfold Rltb; split_decs; cbn [andb] in *; split_decs;
    try (split; [left; lra | lra]);
    try (split; [right; repeat split; lra | lra]).
Qed.

Lemma onMotion_grow ts e st : boundsInv (refs st) ->
  height (onMotion ts e st) = height st \/
  exists ag, accelerationIncludingGravity e = Some ag /\
    0 < dtOf ts (lastTimestampRef (refs st)) /\
    5 / 100 < aVertOf (gMeasOf ag) (gravityRef (refs st)) /\
    1 / 10 < movingUpTimeRef (refs st) + dtOf ts (lastTimestampRef (refs st)).
Proof.
  intros H. destruct (onMotion_cases ts e st) as [-> | (ag & Hag & Hdt & Hr)].
  - left. reflexivity.
  - rewrite Hr.
    destruct (motionStep_grow
      (Rltb (Rabs (aVertOf (gMeasOf ag) (gravityRef (refs st)))) (2 / 100) &&
       Rltb (vecLen (vecSub (gMeasOf ag) (gravityRef (refs st)))) (5 / 100))%bool
      (Rltb (5 / 100) (aVertOf (gMeasOf ag) (gravityRef (refs st))))
      (aVertOf (gMeasOf ag) (gravityRef (refs st)) * 100)
      (dtOf ts (lastTimestampRef (refs st)))
      (setLastTimestamp (refs st) ts) Hdt H) as [[Heq | (_ & Hu & Hm)] _].
    + left. exact Heq.
    + right. exists ag. split; [exact Hag|]. split; [exact Hdt|]. split; [|exact Hm].
      unfold Rltb in Hu. destruct Rlt_dec; [assumption | discriminate].
Qed.

Lemma onMotion_movingUp ts e st : boundsInv (refs st) -> 0 <= movingUpTimeRef (refs st) ->
  0 <= movingUpTimeRef (refs (onMotion ts e st)) <= movingUpTimeRef (refs st) + 5 / 100.
Proof.
  intros H H0. pose proof (dtOf_le ts (lastTimestampRef (refs st))) as Hle.
  destruct (onMotion_cases ts e st) as [-> | (ag & _ & Hdt & ->)].
  - cbn. lra.
  - match goal with |- context [motionStep ?s ?u ?a ?dt ?r] =>
      destruct (motionStep_grow s u a dt r Hdt H) as [_ Hm] end.
    specialize (Hm H0). cbn [movingUpTimeRef setLastTimestamp] in Hm |- *. lra.
Qed.

Lemma exec_movingUp_nonneg ops : 0 <= movingUpTimeRef (refs (exec ops initialEngine)).
Proof.
  assert (H0 : boundsInv (refs initialEngine) /\ 0 <= movingUpTimeRef (refs initialEngine))
    by (unfold boundsInv; cbn; lra).
  unfold exec. revert H0. generalize initialEngine as st.
  induction ops as [|op ops IH]; intros st [Hb Hm]; [exact Hm|].
  apply IH. split; [apply step_bounds, Hb|].
  destruct op as [o|o w| | | |t e]; cbn [step].
  - destruct o; exact Hm.
  - unfold calibrate. destruct (permissionGranted st); [|destruct o; exact Hm].
    unfold calibrateWindow. destruct (Nat.eqb _ 0); exact Hm.
  - unfold startMeasurement. destruct (negb _); [exact Hm | cbn; lra].
  - exact Hm.
  - cbn; lra.
  - unfold deliver. clear IH. generalize (motionListeners (win st)) as n.
    induction n as [|n IHn]; [exact Hm|]. rewrite Nat.iter_succ.
    assert (Hbn : boundsInv (refs (Nat.iter n (onMotion t e) st))).
    { clear IHn. induction n as [|n IHb]; [exact Hb|]. rewrite Nat.iter_succ.
      apply onMotion_bounds, IHb. }
    pose proof (onMotion_movingUp t e _ Hbn IHn). lra.
Qed.

Lemma conservative_snapshot_bounds h s m :
  0 <= h <= 250 ->
  0 <= heightCm (snapshot h s m) <= 250 /\
  Rabs (heightCm (snapshot h s m) - h) <= 1 / 10 /\
  (confidence (snapshot h s m) = 95 \/ confidence (snapshot h s m) = 75).
Proof.
  intros Hh.
  change (heightCm (snapshot h s m))
    with (js_round (js_round (h * 10) / 10 * 10) / 10).
  change (confidence (snapshot h s m))
    with (if (s && Rltb 10 (js_round (h * 10) / 10))%bool then 95 else 75).
  assert (Ha : IZR 0 <= h * 10 <= IZR 2500) by lra.
  pose proof (js_round_between _ _ _ Ha) as Ha1.
  pose proof (js_round_bounds (h * 10)) as Ha2.
  generalize dependent (js_round (h * 10)). intros a Ha1 Ha2.
  replace (a / 10 * 10) with a by field.
  pose proof (js_round_between 0 2500 a Ha1) as Hb1.
  pose proof (js_round_bounds a) as Hb2.
  generalize dependent (js_round a). intros b Hb1 Hb2.
  split; [lra|]. split; [unfold Rabs; destruct Rcase_abs; lra|].
  destruct (s && _)%bool; [left | right]; reflexivity.
Qed.

Lemma onMotion_win ts e st : win (onMotion ts e st) = win st.
Proof.
  unfold onMotion. destruct (accelerationIncludingGravity e); [|reflexivity].
  destruct Rle_dec; reflexivity.
Qed.

Lemma onMotion_measurementState_cases ts e st :
  measurementState (onMotion ts e st) = measurementState st \/
  exists s, measurementState (onMotion ts e st) =
              snapshot (height (onMotion ts e st)) s (measurementState st).
Proof.
  unfold onMotion. destruct (accelerationIncludingGravity e); [|left; reflexivity].
  destruct Rle_dec; [left; reflexivity|]. right. eexists. reflexivity.
Qed.

(** A sample without acceleration, or whose [dt] is not positive (a
    timestamp equal to or before the previous one), is dropped: only
    [lastTimestampRef] moves to the new timestamp. *)
Theorem sample_dropped ts e st :
  (accelerationIncludingGravity e = None \/ dtOf ts (lastTimestampRef (refs st)) <= 0) ->
  onMotion ts e st = setRefs st (setLastTimestamp (refs st) ts).
Proof.
  intros H. unfold onMotion.
  destruct (accelerationIncludingGravity e); [|reflexivity].
  destruct H as [H|H]; [discriminate|].
  destruct Rle_dec; [reflexivity | contradiction].
Qed.

(** In every reachable state the velocity lies in [0, 80] cm/s and the
    accumulated height in [0, 250] cm. *)
Theorem velocity_height_bounds ops :
  0 <= vel (exec ops initialEngine) <= 80 /\
  0 <= height (exec ops initialEngine) <= 250.
Proof. exact (exec_bounds ops). Qed.

(** Only [startMeasurement] and [resetMeasurement] lower the accumulated
    height: every other operation, in particular every motion event, keeps
    it or raises it. *)
Theorem height_never_decreases ops op :
  op <> OpStart -> op <> OpReset ->
  height (exec ops initialEngine) <= height (step (exec ops initialEngine) op).
Proof.
  intros Hs Hr. pose proof (exec_bounds ops) as Hb.
  generalize dependent (exec ops initialEngine). intros st Hb.
  destruct op as [o|o w| | | |t e]; cbn [step]; try congruence.
  - destruct o; apply Rle_refl.
  - unfold calibrate. destruct (permissionGranted st); [|destruct o; apply Rle_refl].
    unfold calibrateWindow. destruct (Nat.eqb _ 0); apply Rle_refl.
  - apply Rle_refl.
  - apply deliver_bounds, Hb.
Qed.

(** In a reachable state a sample raises the height only if it carries an
    acceleration, has a positive [dt], is classified as moving up
    ([aVert > 0.05] m/s^2 against the current gravity estimate) and brings
    the moving-up time above 0.1 s. *)
Theorem height_grows_only_moving_up ops ts e :
  let st := exec ops initialEngine in
  height (onMotion ts e st) = height st \/
  exists ag, accelerationIncludingGravity e = Some ag /\
    0 < dtOf ts (lastTimestampRef (refs st)) /\
    5 / 100 < aVertOf (gMeasOf ag) (gravityRef (refs st)) /\
    1 / 10 < movingUpTimeRef (refs st) + dtOf ts (lastTimestampRef (refs st)).
Proof. cbv zeta. apply onMotion_grow, exec_bounds. Qed.

(** After a calibrated [startMeasurement] (with no listener left over), the
    first two motion events never add height: each advances the moving-up
    time by at most 0.05 s, and height needs more than 0.1 s of it. *)
Theorem first_two_samples_add_no_height st t1 e1 t2 e2 :
  hasCalibratedRef (refs st) = true -> motionListeners (win st) = 0%nat ->
  height (deliver t2 e2 (deliver t1 e1 (startMeasurement st))) = 0.
Proof.
  intros Hc Hl.
  set (s0 := startMeasurement st).
  assert (Hw0 : motionListeners (win s0) = 1%nat)
    by (unfold s0, startMeasurement; rewrite Hc, Hl; reflexivity).
  assert (Hb0 : boundsInv (refs s0) /\ height s0 = 0 /\ movingUpTimeRef (refs s0) = 0)
    by (unfold s0, startMeasurement; rewrite Hc; unfold boundsInv; cbn; lra).
  destruct Hb0 as (Hb0 & Hh0 & Hm0).
  assert (Hd1 : deliver t1 e1 s0 = onMotion t1 e1 s0)
    by (unfold deliver; rewrite Hw0; reflexivity).
  set (s1 := deliver t1 e1 s0).
  assert (Hw1 : motionListeners (win s1) = 1%nat)
    by (unfold s1; rewrite Hd1, onMotion_win; exact Hw0).
  assert (Hd2 : deliver t2 e2 s1 = onMotion t2 e2 s1)
    by (unfold deliver; rewrite Hw1; reflexivity).
  pose proof (dtOf_le t1 (lastTimestampRef (refs s0))) as Hdt1.
  pose proof (dtOf_le t2 (lastTimestampRef (refs s1))) as Hdt2.
  assert (Hh1 : height s1 = 0).
  { unfold s1. rewrite Hd1.
    destruct (onMotion_grow t1 e1 s0 Hb0) as [-> | (_ & _ & _ & _ & H)]; lra. }
  assert (Hb1 : boundsInv (refs s1)) by (unfold s1; rewrite Hd1; apply onMotion_bounds, Hb0).
  assert (Hm1 : movingUpTimeRef (refs s1) <= 5 / 100).
  { unfold s1. rewrite Hd1. pose proof (onMotion_movingUp t1 e1 s0 Hb0) as H.
    rewrite Hm0 in H. specialize (H (Rle_refl 0)). lra. }
  rewrite Hd2.
  destruct (onMotion_grow t2 e2 s1 Hb1) as [-> | (_ & _ & _ & _ & H)]; [exact Hh1 | lra].
Qed.

(** After a sample in a reachable state, either the shown values are
    unchanged (the sample was dropped) or the height shown is in [0, 250]
    and within 0.1 cm of the accumulated height, and the confidence shown is
    exactly 95 or 75. *)
Theorem reported_after_sample ops ts e :
  let st := exec ops initialEngine in
  let st' := onMotion ts e st in
  measurementState st' = measurementState st \/
  (0 <= heightCm (measurementState st') <= 250 /\
   Rabs (heightCm (measurementState st') - height st') <= 1 / 10 /\
   (confidence (measurementState st') = 95 \/ confidence (measurementState st') = 75)).
Proof.
  cbv zeta.
  destruct (onMotion_measurementState_cases ts e (exec ops initialEngine)) as [H | [s ->]];
    [left; exact H | right].
  apply conservative_snapshot_bounds.
  apply (onMotion_bounds ts e _ (exec_bounds ops)).
Qed.

(** A calibrated engine with no listener registered, before measuring. *)
Definition calibratedIdle : Engine :=
  mkEngine initialMS None true (mkRefs defaultGravity 0 0 0 0 0 true)
    (mkWin 0 0 false false).

(** A sample at the timestamp of the previous one. *)
Definition sameTimeState : Engine :=
  mkEngine initialMS None true (mkRefs defaultGravity 1000 0 0 0 0 true)
    (mkWin 1 1 true true).

Lemma sample_dropped_witness :
  (accelerationIncludingGravity spinEvent = None \/
   dtOf 1000 (lastTimestampRef (refs sameTimeState)) <= 0) /\
  onMotion 1000 spinEvent sameTimeState
    = setRefs sameTimeState (setLastTimestamp (refs sameTimeState) 1000).
Proof.
  assert (H : accelerationIncludingGravity spinEvent = None \/
              dtOf 1000 (lastTimestampRef (refs sameTimeState)) <= 0).
  { right. unfold dtOf. cbn [sameTimeState refs lastTimestampRef].
    destruct Req_dec_T as [E|_]; [lra|]. split_decs; lra. }
  split; [exact H|]. exact (sample_dropped 1000 spinEvent sameTimeState H).
Defined.

Lemma height_never_decreases_witness :
  OpStop <> OpStart /\ OpStop <> OpReset /\
  height (exec [] initialEngine) <= height (step (exec [] initialEngine) OpStop).
Proof.
  assert (H1 : OpStop <> OpStart) by discriminate.
  assert (H2 : OpStop <> OpReset) by discriminate.
  split; [exact H1|]. split; [exact H2|].
  exact (height_never_decreases [] OpStop H1 H2).
Defined.

Lemma first_two_samples_add_no_height_witness :
  hasCalibratedRef (refs calibratedIdle) = true /\
  motionListeners (win calibratedIdle) = 0%nat /\
  height (deliver 20 spinEvent (deliver 0 spinEvent (startMeasurement calibratedIdle))) = 0.
Proof.
  split; [reflexivity|]. split; [reflexivity|].
  exact (first_two_samples_add_no_height calibratedIdle 0 spinEvent 20 spinEvent
           eq_refl eq_refl).
Defined.

End Conservative.

(** * The orientation-based hook [useSensorMeasurement]
    (src/unnamed/part_000, lines 643-970)

    Height is derived from the change of the pitch angle [beta] since
    calibration.  [Math.tan] is Stdlib's [tan] ([sin / cos]); the angles
    used below stay away from the poles of [tan].  Console logging and the
    [debugInfo] text are not modelled. *)
Module Orientation.

(** A ['deviceorientation'] event: each angle may be null (degrees). *)
Record DeviceOrientationEvent := mkOEvent {
  alpha : option R; beta : option R; gamma : option R
}.

(** [{ alpha, beta, gamma }] *)
Record Angles := mkAngles { aAlpha : R; aBeta : R; aGamma : R }.

(** [{ alpha, beta, gamma, timestamp }] *)
Record Sample := mkSample { sAlpha : R; sBeta : R; sGamma : R; sTimestamp : R }.

(** Hook state (lines 643-662) and its window registration
    ([window._measurementListener]). *)
Record State := mkState {
  measurementState : MeasurementState;
  error : option string;
  permissionGranted : bool;
  startOrientationRef : option Angles;
  endOrientationRef : option Angles;
  measurementStartRef : R;
  orientationSamplesRef : list Sample;
  orientationListeners : nat;
  measurementListener : bool
}.

Definition initialState : State :=
  mkState initialMS None false None None 0 [] 0 false.

Definition setMS (st : State) (m : MeasurementState) : State :=
  mkState m (error st) (permissionGranted st) (startOrientationRef st)
    (endOrientationRef st) (measurementStartRef st) (orientationSamplesRef st)
    (orientationListeners st) (measurementListener st).
Definition setError (st : State) (e : option string) : State :=
  mkState (measurementState st) e (permissionGranted st) (startOrientationRef st)
    (endOrientationRef st) (measurementStartRef st) (orientationSamplesRef st)
    (orientationListeners st) (measurementListener st).

(** [convertHeight] (lines 665-670) is [toFeetInches]. *)
Definition convertHeight (cm : R) : R * R * R := toFeetInches cm.

(** [requestSensorPermission] (lines 673-706). *)
Definition requestSensorPermission (o : PermissionOutcome) (st : State) : State :=
  match o with
  | Granted =>
      mkState (measurementState st) None true (startOrientationRef st)
        (endOrientationRef st) (measurementStartRef st) (orientationSamplesRef st)
        (orientationListeners st) (measurementListener st)
  | MotionDenied => setError st (Some "Motion sensor permission denied"%string)
  | OrientationDenied => setError st (Some "Orientation sensor permission denied"%string)
  | RequestThrew => setError st (Some "Failed to request sensor permissions"%string)
  end.

(** [handleCalibrationOrientation] (lines 757-767): only events with all
    three angles are kept (their timestamps play no further role). *)
Fixpoint collect (window : list DeviceOrientationEvent) : list Angles :=
  match window with
  | [] => []
  | e :: rest =>
      match alpha e, beta e, gamma e with
      | Some a, Some b, Some g => mkAngles a b g :: collect rest
      | _, _, _ => collect rest
      end
  end.

Definition anglesAdd (acc s : Angles) : Angles :=
  mkAngles (aAlpha acc + aAlpha s) (aBeta acc + aBeta s) (aGamma acc + aGamma s).

(** [calibrate] (lines 741-808) once its 3 s window, delivering [window],
    has elapsed.  Without permission it only requests it and returns.  The
    [testSensors] listeners only log and are removed after 3 s. *)
Definition calibrate (o : PermissionOutcome) (window : list DeviceOrientationEvent)
  (st : State) : State :=
  if negb (permissionGranted st) then requestSensorPermission o st
  else
    let m := measurementState st in
    let st1 := setError (setMS st (mkMS true (isMeasuring m) (isComplete m)
                 (heightCm m) (heightFt m) (heightInches m) (confidence m))) None in
    let samples := collect window in
    let m1 := measurementState st1 in
    if Nat.ltb 0 (List.length samples) then
      let avg := fold_left anglesAdd samples (mkAngles 0 0 0) in
      let n := INR (List.length samples) in
      mkState (mkMS false (isMeasuring m1) (isComplete m1) 0 0 0 0) (error st1)
        (permissionGranted st1)
        (Some (mkAngles (aAlpha avg / n) (aBeta avg / n) (aGamma avg / n)))
        (endOrientationRef st1) (measurementStartRef st1) (orientationSamplesRef st1)
        (orientationListeners st1) (measurementListener st1)
    else
      setMS (setError st1
          (Some "Failed to collect calibration data. Please check sensor permissions."%string))
        (mkMS false (isMeasuring m1) (isComplete m1) (heightCm m1) (heightFt m1)
           (heightInches m1) (confidence m1)).

(** [startMeasurement] (lines 811-900) at time [now] ([Date.now()]). *)
Definition startMeasurement (now : R) (st : State) : State :=
  match startOrientationRef st with
  | None => setError st (Some "Please calibrate first"%string)
  | Some _ =>
      let m := measurementState st in
      mkState (mkMS (isCalibrating m) true false 0 0 0 (confidence m)) None
        (permissionGranted st) (startOrientationRef st) None now []
        (S (orientationListeners st)) true
  end.

(** The angle difference and its wrap-around (lines 851-856). *)
Definition angleDiffOf (startBeta currentBeta : R) : R :=
  let d := currentBeta - startBeta in
  let d1 := if Rlt_dec 180 d then d - 360 else d in
  if Rlt_dec d1 (-180) then d1 + 360 else d1.

(** The height estimate (lines 858-870): [60 * tan(|angleDiff| * PI/180)]
    scaled by 2.5, or 0 for a change of at most 5 degrees. *)
Definition heightOf (angleDiff : R) : R :=
  let armLength := 60 in
  let angleRadians := Rabs angleDiff * (PI / 180) in
  if Rlt_dec 5 (Rabs angleDiff) then armLength * tan angleRadians * (25 / 10) else 0.

(** [confidence = Math.min(85 + |angleDiff| * 0.5, 99.5)] (line 874). *)
Definition confidenceOf (angleDiff : R) : R := Rmin (85 + Rabs angleDiff * (5 / 10)) (995 / 10).

(** [handleMeasurementOrientation] (lines 834-894) at time [now]. *)
Definition handleMeasurementOrientation (now : R) (e : DeviceOrientationEvent)
  (st : State) : State :=
  match startOrientationRef st, beta e, alpha e, gamma e with
  | Some so, Some b, Some a, Some g =>
      let samples := orientationSamplesRef st ++ [mkSample a b g now] in
      let angleDiff := angleDiffOf (aBeta so) b in
      let h := heightOf angleDiff in
      let conf := confidenceOf angleDiff in
      let '(feet, inches, cm) := convertHeight h in
      let m := measurementState st in
      mkState (mkMS (isCalibrating m) (isMeasuring m) (isComplete m) cm feet inches
                 (js_round (conf * 10) / 10))
        (error st) (permissionGranted st) (startOrientationRef st)
        (endOrientationRef st) (measurementStartRef st) samples
        (orientationListeners st) (measurementListener st)
  | _, _, _, _ => st
  end.

(** Removing [window._measurementListener] (lines 904-907, 920-923). *)
Definition detachListener (st : State) : nat * bool :=
  if measurementListener st then (pred (orientationListeners st), false)
  else (orientationListeners st, false).

(** [stopMeasurement] (lines 903-916). *)
Definition stopMeasurement (st : State) : State :=
  let '(n, l) := detachListener st in
  let m := measurementState st in
  mkState (mkMS (isCalibrating m) false true (heightCm m) (heightFt m)
             (heightInches m) (confidence m))
    (error st) (permissionGranted st) (startOrientationRef st)
    (endOrientationRef st) (measurementStartRef st) (orientationSamplesRef st) n l.

(** [resetMeasurement] (lines 919-942). *)
Definition resetMeasurement (st : State) : State :=
  let '(n, l) := detachListener st in
  mkState initialMS None (permissionGranted st) None None 0 [] n l.

(** A ['deviceorientation'] event runs every registered measurement
    listener. *)
Definition deliver (now : R) (e : DeviceOrientationEvent) (st : State) : State :=
  Nat.iter (orientationListeners st) (handleMeasurementOrientation now e) st.

Lemma toFeetInches_zero : convertHeight 0 = (0, 0, 0).
Proof.
  assert (F0 : js_floor 0 = 0) by (apply (js_floor_eq 0 0); lra).
  assert (R0 : js_round 0 = 0) by (apply (js_round_eq 0 0); lra).
  unfold convertHeight, toFeetInches, js_mod, js_trunc.
  replace (0 / 2.54) with 0 by (unfold Rdiv; ring).
  replace (0 / 12) with 0 by (unfold Rdiv; ring).
  destruct (Rle_dec 0 0) as [_|]; [|lra]. rewrite F0.
  replace ((0 - 12 * 0) * 10) with 0 by ring. replace (0 * 10) with 0 by ring.
  rewrite R0. f_equal; [f_equal|]; field.
Qed.

Lemma anglesAdd_fold l acc :
  fold_left anglesAdd l acc =
    mkAngles (aAlpha acc + fold_right Rplus 0 (map aAlpha l))
             (aBeta acc + fold_right Rplus 0 (map aBeta l))
             (aGamma acc + fold_right Rplus 0 (map aGamma l)).
Proof.
  revert acc. induction l as [|x l IH]; intros acc; simpl.
  - destruct acc; simpl. f_equal; ring.
  - rewrite IH. simpl. f_equal; ring.
Qed.

(** An orientation event with a null angle, or one arriving while no
    calibration is stored (e.g. at a listener left over after
    [resetMeasurement]), changes nothing: no sample is stored and the shown
    values stay. *)
Theorem handler_ignores_incomplete now e st :
  startOrientationRef st = None \/ alpha e = None \/ beta e = None \/ gamma e = None ->
  handleMeasurementOrientation now e st = st.
Proof.
  intros H. unfold handleMeasurementOrientation.
  destruct (startOrientationRef st) eqn:Hs, (beta e) eqn:Hb, (alpha e) eqn:Ha,
    (gamma e) eqn:Hg; try reflexivity.
  exfalso. destruct H as [H | [H | [H | H]]]; congruence.
Qed.

(** For pitch angles in [-180, 180] (the range of [beta]), the wrapped
    angle difference lies in [-180, 180] and differs from the raw one by
    -360, 0 or 360 degrees. *)
Theorem angleDiff_range sb cb :
  -180 <= sb <= 180 -> -180 <= cb <= 180 ->
  -180 <= angleDiffOf sb cb <= 180 /\
  exists k, (k = -1 \/ k = 0 \/ k = 1) /\ angleDiffOf sb cb = cb - sb + 360 * k.
Proof.
  intros Hs Hc. unfold angleDiffOf. split_decs; (split; [lra|]).
  - exfalso. lra.
  - exists 1. split; [right; right; reflexivity | ring].
  - exists (-1). split; [left; reflexivity | ring].
  - exists 0. split; [right; left; reflexivity | ring].
Qed.

(** A complete event while calibrated is stored as a sample and shows a
    confidence in [85, 99.5]; for a pitch change of at most 5 degrees the
    height shown is 0 cm (0 ft 0 in) and the confidence at most 87.5. *)
Theorem handler_processed now e st so a b g :
  startOrientationRef st = Some so ->
  alpha e = Some a -> beta e = Some b -> gamma e = Some g ->
  let st' := handleMeasurementOrientation now e st in
  let d := angleDiffOf (aBeta so) b in
  orientationSamplesRef st' = orientationSamplesRef st ++ [mkSample a b g now] /\
  85 <= confidence (measurementState st') <= 995 / 10 /\
  (Rabs d <= 5 ->
   heightCm (measurementState st') = 0 /\ heightFt (measurementState st') = 0 /\
   heightInches (measurementState st') = 0 /\ confidence (measurementState st') <= 875 / 10).
Proof.
  intros Hs Ha Hb Hg. cbv zeta. unfold handleMeasurementOrientation.
  rewrite Hs, Hb, Ha, Hg.
  set (d := angleDiffOf (aBeta so) b).
  assert (Hc1 : IZR 850 <= confidenceOf d * 10 <= IZR 995)
    by (unfold confidenceOf; pose proof (Rabs_pos d); split_decs; lra).
  pose proof (js_round_between _ _ _ Hc1) as Hr1.
  assert (Hsmall : Rabs d <= 5 ->
            heightOf d = 0 /\ js_round (confidenceOf d * 10) <= 875).
  { intros Hd. split.
    - unfold heightOf. destruct Rlt_dec; [lra | reflexivity].
    - assert (Hc2 : IZR 850 <= confidenceOf d * 10 <= IZR 875)
        by (unfold confidenceOf; pose proof (Rabs_pos d); split_decs; lra).
      exact (proj2 (js_round_between _ _ _ Hc2)). }
  destruct (convertHeight (heightOf d)) as [[f i] c] eqn:Hch. cbn.
  split; [reflexivity|]. split; [lra|].
  intros Hd. destruct (Hsmall Hd) as [Hh Hr2].
  rewrite Hh, toFeetInches_zero in Hch. injection Hch as <- <- <-.
  repeat split; lra.
Qed.

(** Between the 5-degree threshold and a quarter turn, the height
    estimate is positive and grows with the size of the pitch change. *)
Theorem height_increases_with_tilt d1 d2 :
  5 < Rabs d1 -> Rabs d1 < Rabs d2 -> Rabs d2 < 90 ->
  0 < heightOf d1 < heightOf d2.
Proof.
  intros H1 H12 H2. unfold heightOf.
  destruct (Rlt_dec 5 (Rabs d1)) as [_|]; [|lra].
  destruct (Rlt_dec 5 (Rabs d2)) as [_|]; [|lra].
  pose proof PI_RGT_0 as Hpi.
  assert (Hx1 : 0 < Rabs d1 * (PI / 180)) by nra.
  assert (Hx12 : Rabs d1 * (PI / 180) < Rabs d2 * (PI / 180)) by nra.
  assert (Hx2 : Rabs d2 * (PI / 180) < PI / 2) by nra.
  pose proof (tan_gt_0 _ Hx1 ltac:(lra)) as Ht1.
  assert (Hx0 : - PI / 2 < Rabs d1 * (PI / 180)) by lra.
  pose proof (tan_increasing _ _ Hx0 Hx12 Hx2) as Ht12.
  split; nra.
Qed.

(** Tilting by more than a quarter turn (between 90 and 180 degrees) gives
    a negative height estimate, shown as a height of at most 0 cm. *)
Theorem tilt_past_vertical_negative d :
  90 < Rabs d < 180 ->
  heightOf d < 0 /\ snd (convertHeight (heightOf d)) <= 0.
Proof.
  intros Hd. pose proof PI_RGT_0 as Hpi.
  assert (Hh : heightOf d < 0).
  { unfold heightOf. destruct Rlt_dec as [_|]; [|lra].
    set (x := Rabs d * (PI / 180)).
    assert (Hs : 0 < sin x) by (apply sin_gt_0; unfold x; nra).
    assert (Hc : cos x < 0) by (apply cos_lt_0; unfold x; nra).
    assert (Ht : tan x < 0).
    { unfold tan, Rdiv. pose proof (Rinv_lt_0_compat _ Hc). nra. }
    nra. }
  split; [exact Hh|].
  cbn [convertHeight toFeetInches snd].
  destruct (js_round_is_int (heightOf d * 10)) as [z Hz].
  pose proof (js_round_bounds (heightOf d * 10)) as Hb.
  rewrite Hz in *.
  assert (Hz0 : IZR z <= IZR 0) by (apply IZR_le_of_lt_succ; lra).
  lra.
Qed.

(** A calibration that collects no complete event reports an error and
    keeps the previously stored calibration, if any. *)
Theorem calibrate_failure_keeps_start o window st :
  permissionGranted st = true -> collect window = [] ->
  let st' := calibrate o window st in
  startOrientationRef st' = startOrientationRef st /\
  error st' = Some "Failed to collect calibration data. Please check sensor permissions."%string /\
  isCalibrating (measurementState st') = false.
Proof. intros Hp Hw. cbv zeta. unfold calibrate. rewrite Hp, Hw. repeat split. Qed.

(** A calibration that collects complete events stores, for each angle,
    the mean over those events; events with a null angle are skipped. *)
Theorem calibrate_mean o window st :
  permissionGranted st = true -> collect window <> [] ->
  let st' := calibrate o window st in
  let n := INR (List.length (collect window)) in
  startOrientationRef st' =
    Some (mkAngles (fold_right Rplus 0 (map aAlpha (collect window)) / n)
                   (fold_right Rplus 0 (map aBeta (collect window)) / n)
                   (fold_right Rplus 0 (map aGamma (collect window)) / n)) /\
  error st' = None /\ isCalibrating (measurementState st') = false.
Proof.
  intros Hp Hw. cbv zeta. unfold calibrate. rewrite Hp. cbn [negb].
  destruct (collect window) as [|x l]; [contradiction|].
  cbn [List.length Nat.ltb Nat.leb]. rewrite anglesAdd_fold. cbn.
  split; [|split; reflexivity].
  f_equal. f_equal; f_equal; ring.
Qed.

(** Starting twice registers two listeners but only the latest is stored:
    after [stopMeasurement] one listener remains, and since the calibration
    is kept it goes on storing samples and updating the completed
    measurement. *)
Theorem double_start_keeps_listener_after_stop st so n1 n2 now e a b g :
  startOrientationRef st = Some so -> orientationListeners st = 0%nat ->
  alpha e = Some a -> beta e = Some b -> gamma e = Some g ->
  let st' := stopMeasurement (startMeasurement n2 (startMeasurement n1 st)) in
  orientationListeners st' = 1%nat /\ isComplete (measurementState st') = true /\
  orientationSamplesRef (deliver now e st') = [mkSample a b g now].
Proof.
  intros Hs H0 Ha Hb Hg. cbv zeta.
  unfold startMeasurement at 2. rewrite Hs.
  unfold startMeasurement. cbn [startOrientationRef]. rewrite Hs, H0.
  cbn. split; [reflexivity|]. split; [reflexivity|].
  unfold handleMeasurementOrientation. cbn [startOrientationRef].
  rewrite Hb, Ha, Hg. reflexivity.
Qed.

(** A calibrated session, before measuring. *)
Definition calibratedState : State :=
  mkState initialMS None true (Some (mkAngles 0 0 0)) None 0 [] 0 false.

(** An event pitched 30 degrees up. *)
Definition tiltEvent : DeviceOrientationEvent := mkOEvent (Some 0) (Some 30) (Some 0).

Lemma handler_ignores_incomplete_witness :
  (startOrientationRef initialState = None \/ alpha tiltEvent = None \/
   beta tiltEvent = None \/ gamma tiltEvent = None) /\
  handleMeasurementOrientation 0 tiltEvent initialState = initialState.
Proof.
  assert (H : startOrientationRef initialState = None \/ alpha tiltEvent = None \/
              beta tiltEvent = None \/ gamma tiltEvent = None) by (left; reflexivity).
  split; [exact H|]. exact (handler_ignores_incomplete 0 tiltEvent initialState H).
Defined.

Lemma angleDiff_range_witness :
  (-180 <= 170 <= 180 /\ -180 <= -170 <= 180) /\
  -180 <= angleDiffOf 170 (-170) <= 180.
Proof.
  assert (H1 : -180 <= 170 <= 180) by lra.
  assert (H2 : -180 <= -170 <= 180) by lra.
  split; [split; [exact H1 | exact H2]|].
  exact (proj1 (angleDiff_range 170 (-170) H1 H2)).
Defined.

Lemma handler_processed_witness :
  85 <= confidence (measurementState (handleMeasurementOrientation 0 tiltEvent calibratedState))
    <= 995 / 10.
Proof.
  exact (proj1 (proj2 (handler_processed 0 tiltEvent calibratedState (mkAngles 0 0 0) 0 30 0
                         eq_refl eq_refl eq_refl eq_refl))).
Defined.

Lemma height_increases_with_tilt_witness :
  (5 < Rabs 10 /\ Rabs 10 < Rabs 20 /\ Rabs 20 < 90) /\ 0 < heightOf 10 < heightOf 20.
Proof.
  assert (E1 : Rabs 10 = 10) by (apply Rabs_right; lra).
  assert (E2 : Rabs 20 = 20) by (apply Rabs_right; lra).
  assert (H1 : 5 < Rabs 10) by (rewrite E1; lra).
  assert (H12 : Rabs 10 < Rabs 20) by (rewrite E1, E2; lra).
  assert (H2 : Rabs 20 < 90) by (rewrite E2; lra).
  split; [split; [exact H1 | split; [exact H12 | exact H2]]|].
  exact (height_increases_with_tilt 10 20 H1 H12 H2).
Defined.

Lemma tilt_past_vertical_negative_witness :
  90 < Rabs 120 < 180 /\ heightOf 120 < 0.
Proof.
  assert (H : 90 < Rabs 120 < 180)
    by (rewrite Rabs_right by lra; lra).
  split; [exact H|]. exact (proj1 (tilt_past_vertical_negative 120 H)).
Defined.

Lemma calibrate_failure_keeps_start_witness :
  permissionGranted calibratedState = true /\
  collect [mkOEvent None (Some 10) (Some 0)] = [] /\
  startOrientationRef (calibrate Granted [mkOEvent None (Some 10) (Some 0)] calibratedState)
    = Some (mkAngles 0 0 0).
Proof.
  split; [reflexivity|]. split; [reflexivity|].
  exact (proj1 (calibrate_failure_keeps_start Granted [mkOEvent None (Some 10) (Some 0)]
                  calibratedState eq_refl eq_refl)).
Defined.

Lemma calibrate_mean_witness :
  permissionGranted calibratedState = true /\ collect [tiltEvent] <> [] /\
  error (calibrate Granted [tiltEvent] calibratedState) = None.
Proof.
  assert (H : collect [tiltEvent] <> []) by discriminate.
  split; [reflexivity|]. split; [exact H|].
  exact (proj1 (proj2 (calibrate_mean Granted [tiltEvent] calibratedState eq_refl H))).
Defined.

Lemma double_start_keeps_listener_after_stop_witness :
  orientationSamplesRef (deliver 5 tiltEvent
    (stopMeasurement (startMeasurement 2 (startMeasurement 1 calibratedState))))
    = [mkSample 0 30 0 5].
Proof.
  exact (proj2 (proj2 (double_start_keeps_listener_after_stop calibratedState
    (mkAngles 0 0 0) 1 2 5 tiltEvent 0 30 0 eq_refl eq_refl eq_refl eq_refl eq_refl))).
Defined.

End Orientation.
